(** * AI News Hub backend (app.py): content extractor and request handlers

    A shallow embedding of the Flask backend in [app.py].  Python [str]
    values are lists of Unicode code points, the parsed page
    (BeautifulSoup's tree) is a rose tree, JSON values are an inductive
    type, and the handlers are programs of a small effect monad whose
    effects are the calls the code makes to the outside world:
    [requests.get], [generate_content], [datetime.utcnow] and
    [random.randint]. *)

From Stdlib Require Import String Ascii.
From Stdlib Require QArith.
From Stdlib Require Import NArith ZArith Bool Lia List Sorted.
Import ListNotations.
Open Scope string_scope.
Open Scope list_scope.
Set Warnings "-register-all,-abstract-large-number".

(** ** Python strings *)

Module PyStr.

(** A Python [str] is a sequence of code points; [len] counts them and a
    slice cuts between them. *)
Definition pystr := list N.

(** An ASCII literal of the source as a [pystr]. *)
Definition py (s : string) : pystr :=
  map (fun a => N.of_nat (nat_of_ascii a)) (list_ascii_of_string s).

Arguments py : simpl never.

Definition pystr_eqb (a b : pystr) : bool :=
  if list_eq_dec N.eq_dec a b then true else false.

(** [str.isspace] for one code point: the table of CPython's
    [_PyUnicode_IsWhitespace]. *)
Definition isspace (c : N) : bool :=
  (((9 <=? c) && (c <=? 13)) || ((28 <=? c) && (c <=? 32))
   || (c =? 133) || (c =? 160) || (c =? 5760)
   || ((8192 <=? c) && (c <=? 8202))
   || (c =? 8232) || (c =? 8233) || (c =? 8239) || (c =? 8287)
   || (c =? 12288))%N.

Fixpoint lstrip (s : pystr) : pystr :=
  match s with
  | [] => []
  | c :: s' => if isspace c then lstrip s' else s
  end.

Definition rstrip (s : pystr) : pystr := rev (lstrip (rev s)).

(** [s.strip()] *)
Definition strip (s : pystr) : pystr := rstrip (lstrip s).

(** The maximal runs of code points that are not separators, in order. *)
Fixpoint split_on (sp : N -> bool) (s : pystr) : list pystr :=
  match s with
  | [] => []
  | c :: s' =>
      if sp c then split_on sp s'
      else match s' with
           | [] => [[c]]
           | d :: _ =>
               if sp d then [c] :: split_on sp s'
               else match split_on sp s' with
                    | w :: ws => (c :: w) :: ws
                    | [] => [[c]]
                    end
           end
  end.

(** [s.split()] *)
Definition split (s : pystr) : list pystr := split_on isspace s.

(** [sep.join(parts)] *)
Fixpoint join (sep : pystr) (parts : list pystr) : pystr :=
  match parts with
  | [] => []
  | [p] => p
  | p :: rest => p ++ sep ++ join sep rest
  end.

Definition space : pystr := [32%N].

(** [' '.join(s.split())] *)
Definition collapse_whitespace (s : pystr) : pystr := join space (split s).

(** [s[:n]] *)
Definition slice_to (n : nat) (s : pystr) : pystr := firstn n s.

(** [not s] for a string. *)
Definition is_empty (s : pystr) : bool :=
  match s with [] => true | _ => false end.

End PyStr.
Import PyStr.

(** ** The parsed page *)

Module Soup.

(** An attribute value as bs4 stores it: a string, or a list of tokens for
    a multi-valued attribute such as [class]. *)
Inductive attr_value :=
| AttrStr (s : pystr)
| AttrList (l : list pystr).

(** The classes of string that are not plain text.  The parser gives a
    string inside a [template], [rt], [rp], [script] or [style] element
    (the nearest such element around it) that element's own class; a
    comment, a doctype, a declaration or a processing instruction has a
    class of its own kind. *)
Inductive string_kind :=
| TemplateString
| RubyTextString
| RubyParenthesisString
| Script
| Stylesheet
| Comment
| OtherMarkup.

Definition string_kind_eqb (a b : string_kind) : bool :=
  match a, b with
  | TemplateString, TemplateString
  | RubyTextString, RubyTextString
  | RubyParenthesisString, RubyParenthesisString
  | Script, Script
  | Stylesheet, Stylesheet
  | Comment, Comment
  | OtherMarkup, OtherMarkup => true
  | _, _ => false
  end.

(** A node of the tree built by [BeautifulSoup(..., 'html.parser')].
    [Text] is a [NavigableString] or [CData], the strings that [get_text]
    yields for an ordinary element; [Special] is a string of any other
    class.
    Element and attribute names are as the parser stores them, in lower
    case. *)
Inductive node :=
| Text (s : pystr)
| Special (kind : string_kind) (s : pystr)
| Element (name : pystr) (attrs : list (pystr * attr_value))
          (children : list node).

(** The [BeautifulSoup] object: the top-level nodes of the page. *)
Definition soup := list node.

(** [el.descendants]: every node below [el], in document order. *)
Fixpoint descendants (el : node) : list node :=
  match el with
  | Element _ _ children => flat_map (fun c => c :: descendants c) children
  | _ => []
  end.

Definition soup_descendants (doc : soup) : list node :=
  flat_map (fun c => c :: descendants c) doc.

Definition name_in (names : list pystr) (n : node) : bool :=
  match n with
  | Element nm _ _ => existsb (pystr_eqb nm) names
  | _ => false
  end.

(** [soup.find_all(names)] *)
Definition find_all (names : list pystr) (doc : soup) : list node :=
  filter (name_in names) (soup_descendants doc).

(** [soup.find(name)] *)
Definition find (name : pystr) (doc : soup) : option node :=
  List.find (name_in [name]) (soup_descendants doc).

(** [for element in soup(names): element.decompose()].  [soup(names)] is
    [find_all]: it lists every element with one of the names, nested ones
    too, and each is then cut out of the tree with all it contains (one
    that sat inside an earlier one is already gone with it).  What is left
    is the tree without any element of these names; the strings on both
    sides of a removed element stay separate nodes. *)
Fixpoint decompose_node (names : list pystr) (n : node) : node :=
  match n with
  | Element nm attrs children =>
      Element nm attrs
        (flat_map (fun c => if name_in names c then []
                            else [decompose_node names c]) children)
  | _ => n
  end.

Definition decompose_all (names : list pystr) (doc : soup) : soup :=
  flat_map (fun c => if name_in names c then []
                     else [decompose_node names c]) doc.

(** [el.interesting_string_types]: the builder's [string_containers]
    gives the elements [rt], [rp], [style], [script] and [template] a
    string class of their own; [None] stands for the default,
    [NavigableString] and [CData]. *)
Definition interesting_string_types (name : pystr) : option string_kind :=
  if pystr_eqb name (py "rt") then Some RubyTextString
  else if pystr_eqb name (py "rp") then Some RubyParenthesisString
  else if pystr_eqb name (py "style") then Some Stylesheet
  else if pystr_eqb name (py "script") then Some Script
  else if pystr_eqb name (py "template") then Some TemplateString
  else None.

(** Whether [get_text], called on an element with these interesting
    types, yields the string of a node. *)
Definition yielded (types : option string_kind) (n : node) : list pystr :=
  match n, types with
  | Text s, None => [s]
  | Special kind s, Some wanted =>
      if string_kind_eqb kind wanted then [s] else []
  | _, _ => []
  end.

(** The strings [get_text] walks over: the strings below [el] whose class
    is one of [el]'s interesting types.  For an ordinary element these are
    its [Text] nodes; for a [template], [rt] or [rp] element they are the
    strings of that element's own class. *)
Definition strings (el : node) : list pystr :=
  match el with
  | Element name _ _ =>
      flat_map (yielded (interesting_string_types name)) (descendants el)
  | _ => []
  end.

(** [el.get_text()] *)
Definition get_text (el : node) : pystr := concat (strings el).

(** [el.get_text(separator=' ', strip=True)]: every string is stripped,
    the empty ones are dropped, the rest joined by the separator. *)
Definition get_text_sep_strip (sep : pystr) (el : node) : pystr :=
  join sep (filter (fun s => negb (is_empty s)) (map strip (strings el))).

(** The selectors of the source, as soupsieve parses them:
    a type selector [name], an attribute selector [[attr="value"]] and a
    class selector [.cls]. *)
Inductive selector :=
| SelType (name : pystr)
| SelAttrEq (attr value : pystr)
| SelClass (cls : pystr).

Fixpoint get_attr (attrs : list (pystr * attr_value)) (k : pystr)
  : option attr_value :=
  match attrs with
  | [] => None
  | (k', v) :: rest => if pystr_eqb k' k then Some v else get_attr rest k
  end.

(** The separators of a class attribute held as one string:
    space, tab, carriage return, line feed and form feed. *)
Definition css_space (c : N) : bool :=
  ((c =? 32) || (c =? 9) || (c =? 13) || (c =? 10) || (c =? 12))%N.

(** [[attr="value"]] is matched with the regular expression [^value$] on
    the attribute's value (a token list joined by spaces); [$] also
    matches before one final line feed. *)
Definition attr_equals (v : attr_value) (value : pystr) : bool :=
  let s := match v with AttrStr s => s | AttrList l => join space l end in
  pystr_eqb s value || pystr_eqb s (value ++ [10%N]).

Definition has_class (v : attr_value) (cls : pystr) : bool :=
  let tokens := match v with
                | AttrStr s => split_on css_space s
                | AttrList l => l
                end in
  existsb (pystr_eqb cls) tokens.

Definition matches (sel : selector) (n : node) : bool :=
  match n with
  | Element nm attrs _ =>
      match sel with
      | SelType name => pystr_eqb nm name
      | SelAttrEq attr value =>
          match get_attr attrs attr with
          | Some v => attr_equals v value
          | None => false
          end
      | SelClass cls =>
          match get_attr attrs (py "class") with
          | Some v => has_class v cls
          | None => false
          end
      end
  | _ => false
  end.

(** [soup.select_one(selector)]: the first element, in document order,
    that the selector matches. *)
Definition select_one (sel : selector) (doc : soup) : option node :=
  List.find (matches sel) (soup_descendants doc).

End Soup.
Import Soup.

(** ** The content extractor of [extract_from_url] *)

Module Extractor.

(** [['script', 'style', 'nav', 'footer', 'header', 'aside']] *)
Definition unwanted : list pystr :=
  [py "script"; py "style"; py "nav"; py "footer"; py "header"; py "aside"].

(** [['article', 'main', '[role="main"]', '.article-content',
      '.post-content', '.entry-content']] *)
Definition container_selectors : list selector :=
  [SelType (py "article"); SelType (py "main");
   SelAttrEq (py "role") (py "main");
   SelClass (py "article-content"); SelClass (py "post-content");
   SelClass (py "entry-content")].

(** The loop over the selectors: [article_content] starts as [''], the
    first selector with [select_one(selector)] not [None] sets it to that
    element's text and leaves the loop ([if content:] holds for every tag,
    whose truth value is [True] whatever it contains). *)
Fixpoint try_containers (sels : list selector) (doc : soup) : pystr :=
  match sels with
  | [] => []
  | sel :: rest =>
      match select_one sel doc with
      | Some content => get_text_sep_strip space content
      | None => try_containers rest doc
      end
  end.

(** [' '.join([p.get_text().strip() for p in paragraphs
                if p.get_text().strip()])] over [soup.find_all('p')] *)
Definition paragraph_fallback (doc : soup) : pystr :=
  join space
    (map (fun p => strip (get_text p))
       (filter (fun p => negb (is_empty (strip (get_text p))))
          (find_all [py "p"] doc))).

(** [article_content] after the loop, the fallback and the whitespace
    clean-up, on the tree the unwanted elements were removed from. *)
Definition article_content_of (doc : soup) : pystr :=
  let article_content := try_containers container_selectors doc in
  let article_content :=
    if is_empty article_content then paragraph_fallback doc
    else article_content in
  collapse_whitespace article_content.

(** The extractor on the parsed page: removal, then selection. *)
Definition extract_content (page : soup) : pystr :=
  article_content_of (decompose_all unwanted page).

(** [title_text] *)
Definition title_text_of (doc : soup) : pystr :=
  match find (py "title") doc with
  | Some title => strip (get_text title)
  | None => py "No title found"
  end.

End Extractor.
Import Extractor.

(** ** Python values decoded from JSON, and exceptions *)

Module Json.

(** What [request.get_json()] and [response.json()] return, and what
    [jsonify] takes: [None], [bool], [int], [float] (as a rational),
    [str], [list] and [dict] (in insertion order). *)
Inductive json :=
| JNull
| JBool (b : bool)
| JInt (z : Z)
| JFloat (q : QArith_base.Q)
| JStr (s : pystr)
| JArr (items : list json)
| JObj (fields : list (pystr * json)).

(** The truth value Python gives a value in [if v:] and [not v]. *)
Definition truthy (v : json) : bool :=
  match v with
  | JNull => false
  | JBool b => b
  | JInt z => negb (z =? 0)%Z
  | JFloat q => negb (QArith_base.Qeq_bool q (QArith_base.Qmake 0 1))
  | JStr s => negb (is_empty s)
  | JArr items => match items with [] => false | _ => true end
  | JObj fields => match fields with [] => false | _ => true end
  end.

Fixpoint dict_get (fields : list (pystr * json)) (k : pystr) : option json :=
  match fields with
  | [] => None
  | (k', v) :: rest => if pystr_eqb k' k then Some v else dict_get rest k
  end.

(** [d[k] = v] *)
Fixpoint dict_set (fields : list (pystr * json)) (k : pystr) (v : json)
  : list (pystr * json) :=
  match fields with
  | [] => [(k, v)]
  | (k', v') :: rest =>
      if pystr_eqb k' k then (k, v) :: rest
      else (k', v') :: dict_set rest k v
  end.

Definition type_name (v : json) : pystr :=
  match v with
  | JNull => py "NoneType"
  | JBool _ => py "bool"
  | JInt _ => py "int"
  | JFloat _ => py "float"
  | JStr _ => py "str"
  | JArr _ => py "list"
  | JObj _ => py "dict"
  end.

Inductive exn_class :=
| RequestException   (* requests.exceptions.RequestException and below *)
| HTTPException      (* werkzeug's, raised by [get_json] *)
| AttributeError
| TypeError
| OtherException.

(** A raised exception: its class and [str(e)]. *)
Record exn := Exn { exn_cls : exn_class; exn_str : pystr }.

Definition is_request_exception (e : exn) : bool :=
  match exn_cls e with RequestException => true | _ => false end.

(** [data.get(k, default)]: only a [dict] has [get]. *)
Definition py_get (data : json) (k : pystr) (default : json) : exn + json :=
  match data with
  | JObj fields =>
      inr (match dict_get fields k with Some v => v | None => default end)
  | _ =>
      inl (Exn AttributeError
             (py "'" ++ type_name data
                ++ py "' object has no attribute 'get'"))
  end.

(** [len(v)] *)
Definition py_len (v : json) : exn + nat :=
  match v with
  | JStr s => inr (length s)
  | JArr items => inr (length items)
  | JObj fields => inr (length fields)
  | _ =>
      inl (Exn TypeError
             (py "object of type '" ++ type_name v ++ py "' has no len()"))
  end.

End Json.
Import Json.

(** ** The outside world *)

Module World.

(** [requests.get(url, params=..., headers=..., timeout=...)] *)
Record http_request := HttpRequest {
  rq_url : json;
  rq_params : list (pystr * json);
  rq_headers : list (pystr * pystr);
  rq_timeout : Z
}.

(** The [Response] of [requests]: [status_code], [content], what
    [json()] returns or raises, and the text of the [HTTPError] that
    [raise_for_status()] raises when the status is 400 to 599. *)
Record http_response := HttpResponse {
  status_code : Z;
  content : list N;
  json_of : exn + json;
  http_error_str : pystr
}.

(** [model.generate_content(prompt, generation_config=..., ...)]:
    temperature 0.7, [top_p] 0.8 and [top_k] 40 in both calls of the
    source; [gen_safety_off] says that the four [BLOCK_NONE] safety
    settings are passed. *)
Record gen_request := GenRequest {
  gen_prompt : pystr;
  gen_max_output_tokens : Z;
  gen_safety_off : bool
}.

(** The reply of [generate_content]: reading [.text] returns a string or
    raises. *)
Record gen_response := GenResponse { text_of : exn + pystr }.

(** A program that returns an [A], raises, or calls the outside world and
    goes on with the answer.  A call that can raise hands the exception
    or the value to the continuation. *)
Inductive io (A : Type) : Type :=
| Ret (a : A)
| Raise (e : exn)
| UtcNow (k : Z -> io A)
| RandInt (lo hi : Z) (k : Z -> io A)
| RequestsGet (rq : http_request) (k : exn + http_response -> io A)
| GenerateContent (rq : gen_request) (k : exn + gen_response -> io A).

Arguments Ret {A} a.
Arguments Raise {A} e.
Arguments UtcNow {A} k.
Arguments RandInt {A} lo hi k.
Arguments RequestsGet {A} rq k.
Arguments GenerateContent {A} rq k.

Fixpoint bind {A B : Type} (m : io A) (f : A -> io B) : io B :=
  match m with
  | Ret a => f a
  | Raise e => Raise e
  | UtcNow k => UtcNow (fun x => bind (k x) f)
  | RandInt lo hi k => RandInt lo hi (fun x => bind (k x) f)
  | RequestsGet rq k => RequestsGet rq (fun x => bind (k x) f)
  | GenerateContent rq k => GenerateContent rq (fun x => bind (k x) f)
  end.

(** [try: m  except Exception as e: handler(e)] *)
Fixpoint try_except {A : Type} (m : io A) (handler : exn -> io A) : io A :=
  match m with
  | Ret a => Ret a
  | Raise e => handler e
  | UtcNow k => UtcNow (fun x => try_except (k x) handler)
  | RandInt lo hi k => RandInt lo hi (fun x => try_except (k x) handler)
  | RequestsGet rq k => RequestsGet rq (fun x => try_except (k x) handler)
  | GenerateContent rq k =>
      GenerateContent rq (fun x => try_except (k x) handler)
  end.

(** A value or the exception its computation raised. *)
Definition lift {A : Type} (r : exn + A) : io A :=
  match r with inl e => Raise e | inr a => Ret a end.

Definition utcnow : io Z := UtcNow Ret.
Definition randint (lo hi : Z) : io Z := RandInt lo hi Ret.
Definition requests_get (rq : http_request) : io http_response :=
  RequestsGet rq lift.
Definition generate_content (rq : gen_request) : io gen_response :=
  GenerateContent rq lift.

(** What the world answers to the call made after [n] earlier calls. *)
Record world := World {
  now_at : nat -> Z;
  randint_at : nat -> Z -> Z -> Z;
  requests_at : nat -> http_request -> exn + http_response;
  generate_at : nat -> gen_request -> exn + gen_response
}.

Inductive event :=
| EvUtcNow
| EvRandInt (lo hi : Z)
| EvRequestsGet (rq : http_request)
| EvGenerateContent (rq : gen_request).

(** Running a program in a world, [n] calls having been made: what it
    returns or raises, and the calls it made, in order. *)
Fixpoint run {A : Type} (w : world) (n : nat) (m : io A)
  : (exn + A) * list event :=
  match m with
  | Ret a => (inr a, [])
  | Raise e => (inl e, [])
  | UtcNow k =>
      let (r, t) := run w (S n) (k (now_at w n)) in (r, EvUtcNow :: t)
  | RandInt lo hi k =>
      let (r, t) := run w (S n) (k (randint_at w n lo hi)) in
      (r, EvRandInt lo hi :: t)
  | RequestsGet rq k =>
      let (r, t) := run w (S n) (k (requests_at w n rq)) in
      (r, EvRequestsGet rq :: t)
  | GenerateContent rq k =>
      let (r, t) := run w (S n) (k (generate_at w n rq)) in
      (r, EvGenerateContent rq :: t)
  end.

Definition is_upstream_call (e : event) : bool :=
  match e with EvRequestsGet _ => true | _ => false end.

Definition is_ai_call (e : event) : bool :=
  match e with EvGenerateContent _ => true | _ => false end.

End World.
Import World.

Notation "x <- m ;; k" := (bind m (fun x => k))
  (at level 61, m at next level, right associativity).

(** ** The request handlers *)

Module App.

(** The module-level state the handlers read: [NEWS_API_KEY =
    os.getenv('NEWS_API_KEY')] and [gemini_model], the model the start-up
    code settled on ([None] without a key or when no model answered). *)
Record config := Config {
  NEWS_API_KEY : option pystr;
  gemini_model : option pystr
}.

(** Flask's [request]: the method, the query arguments, and what
    [request.get_json()] returns or raises. *)
Record request := Request {
  method : pystr;
  args : list (pystr * pystr);
  get_json : exn + json
}.

Inductive resp_body :=
| JsonBody (j : json)   (* [jsonify(j)] *)
| TextBody (s : pystr).

(** What a view returns: body and status code. *)
Record flask_response := Resp { status : Z; body : resp_body }.

(** [return jsonify(j)] and [return jsonify(j), code] *)
Definition jsonify (j : json) : flask_response := Resp 200 (JsonBody j).
Definition jsonify_with (j : json) (code : Z) : flask_response :=
  Resp code (JsonBody j).

Definition body_field (r : flask_response) (k : pystr) : option json :=
  match body r with
  | JsonBody (JObj fields) => dict_get fields k
  | _ => None
  end.

Definition NEWS_API_BASE : pystr := py "https://newsapi.org/v2".

(** [not NEWS_API_KEY] *)
Definition no_news_key (cfg : config) : bool :=
  match NEWS_API_KEY cfg with
  | None => true
  | Some k => is_empty k
  end.

(** [gemini_model] as a condition: a model object counts as true. *)
Definition has_model (cfg : config) : bool :=
  match gemini_model cfg with Some _ => true | None => false end.

Definition news_key_value (cfg : config) : json :=
  match NEWS_API_KEY cfg with Some k => JStr k | None => JNull end.

(** [request.args.get(k, default)] *)
Fixpoint args_get (a : list (pystr * pystr)) (k default : pystr) : pystr :=
  match a with
  | [] => default
  | (k', v) :: rest => if pystr_eqb k' k then v else args_get rest k default
  end.

Definition is_options (rq : request) : bool :=
  pystr_eqb (method rq) (py "OPTIONS").

(** [return '', 204] *)
Definition no_content : flask_response := Resp 204 (TextBody []).

Definition error_body (msg : json) : json := JObj [(py "error", msg)].

Definition lines (l : list string) : pystr := join [10%N] (map py l).

(** [v[:n]] for a decoded value. *)
Definition py_slice_to (n : nat) (v : json) : exn + json :=
  match v with
  | JStr s => inr (JStr (slice_to n s))
  | JArr items => inr (JArr (firstn n items))
  | JObj _ => inl (Exn TypeError (py "unhashable type: 'slice'"))
  | _ =>
      inl (Exn TypeError
             (py "'" ++ type_name v ++ py "' object is not subscriptable"))
  end.

(** The value [data.get(k, '')] takes in a dictionary. *)
Definition field_or_empty (fields : list (pystr * json)) (k : pystr) : json :=
  match dict_get fields k with Some v => v | None => JStr [] end.



Section Handlers.

(** Library functions the handlers call: [datetime.isoformat] on a naive
    UTC time (microseconds since the epoch), the parser behind
    [BeautifulSoup(content, 'html.parser')], and [str(v)] as an f-string
    formats a value that is not a string. *)
Variable isoformat : Z -> pystr.
Variable html_parser : list N -> soup.
Variable py_str : json -> pystr.

Definition hours (h : Z) : Z := (h * 3600 * 1000000)%Z.

(** [(now - timedelta(hours=h)).isoformat() + 'Z'] *)
Definition published_at (now h : Z) : json :=
  JStr (isoformat (now - hours h) ++ py "Z").

Definition demo_article (source title description url : string)
  (publishedAt : json) : json :=
  JObj [(py "source", JObj [(py "name", JStr (py source))]);
        (py "title", JStr (py title));
        (py "description", JStr (py description));
        (py "url", JStr (py url));
        (py "publishedAt", publishedAt);
        (py "urlToImage", JNull)].

(** [demo_data] for the time and the six random hour offsets drawn. *)
Definition demo_data (now h1 h2 h3 h4 h5 h6 : Z) : list json :=
  [demo_article "Tech Daily"
     "Revolutionary AI System Achieves Human-Level Reasoning"
     "Scientists announce breakthrough in artificial intelligence that enables machines to solve complex problems with human-like reasoning capabilities."
     "https://example.com/ai-breakthrough" (published_at now h1);
   demo_article "Global News Network"
     "Sustainable Energy Solutions Transform Power Generation"
     "New renewable energy technology promises to revolutionize how we generate and store electricity, making clean energy more accessible."
     "https://example.com/energy-solutions" (published_at now h2);
   demo_article "Innovation Weekly"
     "Quantum Computing Reaches Commercial Milestone"
     "Major tech companies announce quantum computers are now available for enterprise applications, marking a new era in computing."
     "https://example.com/quantum-computing" (published_at now h3);
   demo_article "Health Monitor"
     "Medical AI Improves Early Disease Detection"
     "New artificial intelligence tools help doctors identify diseases earlier and with greater accuracy, improving patient outcomes."
     "https://example.com/medical-ai" (published_at now h4);
   demo_article "Space Gazette"
     "Mars Colony Project Enters New Phase"
     "International space agencies collaborate on ambitious plan to establish permanent human settlement on Mars by 2030."
     "https://example.com/mars-colony" (published_at now h5);
   demo_article "Business Insider"
     "Digital Currency Adoption Accelerates Globally"
     "Central banks worldwide move forward with digital currency initiatives as adoption rates surge across major economies."
     "https://example.com/digital-currency" (published_at now h6)].

Definition get_demo_articles : io (list json) :=
  now <- utcnow ;;
  h1 <- randint 1 5 ;;
  h2 <- randint 6 12 ;;
  h3 <- randint 13 24 ;;
  h4 <- randint 25 36 ;;
  h5 <- randint 37 48 ;;
  h6 <- randint 49 72 ;;
  Ret (demo_data now h1 h2 h3 h4 h5 h6).

(** The articles [get_demo_articles] returns when it starts after [n]
    calls: the time, then the six draws, in the order of the list. *)
Definition demo_articles_at (w : world) (n : nat) : list json :=
  demo_data (now_at w n)
    (randint_at w (1 + n) 1 5) (randint_at w (2 + n) 6 12)
    (randint_at w (3 + n) 13 24) (randint_at w (4 + n) 25 36)
    (randint_at w (5 + n) 37 48) (randint_at w (6 + n) 49 72).

Definition demo_events : list event :=
  [EvUtcNow; EvRandInt 1 5; EvRandInt 6 12; EvRandInt 13 24;
   EvRandInt 25 36; EvRandInt 37 48; EvRandInt 49 72].

Definition json_len (l : list json) : json := JInt (Z.of_nat (length l)).

(** The calls to the news API: [/top-headlines] and [/everything]. *)
Definition trending_request (cfg : config) (category : pystr) : http_request :=
  HttpRequest (JStr (NEWS_API_BASE ++ py "/top-headlines"))
    [(py "category", JStr category);
     (py "language", JStr (py "en"));
     (py "pageSize", JInt 20);
     (py "apiKey", news_key_value cfg)]
    [] 10.

Definition search_request (cfg : config) (query : json) : http_request :=
  HttpRequest (JStr (NEWS_API_BASE ++ py "/everything"))
    [(py "q", query);
     (py "language", JStr (py "en"));
     (py "sortBy", JStr (py "publishedAt"));
     (py "pageSize", JInt 20);
     (py "apiKey", news_key_value cfg)]
    [] 10.

(** The [except Exception as e] clause of the two news handlers. *)
Definition news_failure (e : exn) : io flask_response :=
  Ret (jsonify_with (error_body (JStr (exn_str e))) 500).

(** [/api/trending].  The [print] calls are left out, but not the
    expressions they evaluate, which can raise. *)
Definition get_trending (cfg : config) (rq : request) : io flask_response :=
  if is_options rq then Ret no_content
  else
    let category := args_get (args rq) (py "category") (py "general") in
    if no_news_key cfg then
      demo_articles <- get_demo_articles ;;
      Ret (jsonify
             (JObj [(py "status", JStr (py "ok"));
                    (py "totalResults", json_len demo_articles);
                    (py "articles", JArr demo_articles);
                    (py "note",
                     JStr (py "DEMO DATA - Add NEWS_API_KEY to .env for real news"))]))
    else
      try_except
        (response <- requests_get (trending_request cfg category) ;;
         data <- lift (json_of response) ;;
         if (status_code response =? 200)%Z then
           articles <- lift (py_get data (py "articles") (JArr [])) ;;
           _ <- lift (py_len articles) ;;
           Ret (jsonify data)
         else
           _ <- lift (py_get data (py "message") (JStr (py "Unknown error"))) ;;
           let mirror :=
             message <- lift (py_get data (py "message")
                                (JStr (py "Failed to fetch news"))) ;;
             Ret (jsonify_with (error_body message) (status_code response)) in
           if (status_code response =? 401)%Z then mirror
           else if (status_code response =? 429)%Z then
             demo_articles <- get_demo_articles ;;
             Ret (jsonify
                    (JObj [(py "status", JStr (py "ok"));
                           (py "articles", JArr demo_articles);
                           (py "note",
                            JStr (py "Rate limit exceeded - showing demo data"))]))
           else mirror)
        news_failure.

(** [/api/search].  [get_json] and [data.get] run before the [try]. *)
Definition search_news (cfg : config) (rq : request) : io flask_response :=
  if is_options rq then Ret no_content
  else
    data <- lift (get_json rq) ;;
    query <- lift (py_get data (py "query") (JStr [])) ;;
    if negb (truthy query) then
      Ret (jsonify_with (error_body (JStr (py "Query is required"))) 400)
    else if no_news_key cfg then
      counted <- get_demo_articles ;;
      demo_articles <- get_demo_articles ;;
      Ret (jsonify
             (JObj [(py "status", JStr (py "ok"));
                    (py "totalResults", json_len counted);
                    (py "articles", JArr demo_articles);
                    (py "note",
                     JStr (py "DEMO DATA - Add NEWS_API_KEY to .env for real search"))]))
    else
      try_except
        (response <- requests_get (search_request cfg query) ;;
         data <- lift (json_of response) ;;
         if (status_code response =? 200)%Z then
           articles <- lift (py_get data (py "articles") (JArr [])) ;;
           _ <- lift (py_len articles) ;;
           Ret (jsonify data)
         else
           _ <- lift (py_get data (py "message") (JStr (py "Unknown error"))) ;;
           message <- lift (py_get data (py "message")
                              (JStr (py "Search failed"))) ;;
           Ret (jsonify_with (error_body message) (status_code response)))
        news_failure.

(** A value inside an f-string. *)
Definition formatted (v : json) : pystr :=
  match v with JStr s => s | _ => py_str v end.

Definition summarize_prompt (excerpt : pystr) : pystr :=
  lines ["Please provide a concise and informative summary of the following article. ";
         "        Include the main points and key takeaways in 3-4 sentences.";
         "        ";
         "        Article:";
         "        "]
  ++ excerpt ++ [10%N]
  ++ lines ["        ";
            "        Summary:"].

(** [/api/summarize] *)
Definition summarize_article (cfg : config) (rq : request)
  : io flask_response :=
  if is_options rq then Ret no_content
  else
    try_except
      (data <- lift (get_json rq) ;;
       if negb (truthy data) then
         Ret (jsonify_with (error_body (JStr (py "No data received"))) 400)
       else
         text <- lift (py_get data (py "text") (JStr [])) ;;
         _ <- lift (py_len text) ;;
         if negb (truthy text) then
           Ret (jsonify_with (error_body (JStr (py "Text is required"))) 400)
         else
           if negb (has_model cfg) then
             Ret (jsonify_with
                    (JObj [(py "summary",
                            JStr (py "This is a demo summary. To get real AI-powered summaries, please configure your Gemini API key in the .env file. Visit https://makersuite.google.com/app/apikey to get your free API key."));
                           (py "ai_model", JStr (py "Demo Mode"));
                           (py "note",
                            JStr (py "Gemini API key not configured"))])
                    200)
           else
             excerpt <- lift (py_slice_to 3000 text) ;;
             response <- generate_content
               (GenRequest (summarize_prompt (formatted excerpt)) 500 true) ;;
             summary <- lift (text_of response) ;;
             if is_empty summary then
               Ret (jsonify_with
                      (JObj [(py "error",
                              JStr (py "Content generation was blocked by safety filters"));
                             (py "summary",
                              JStr (py "Unable to generate summary for this content."))])
                      200)
             else
               original_length <- lift (py_len text) ;;
               Ret (jsonify
                      (JObj [(py "summary", JStr summary);
                             (py "original_length",
                              JInt (Z.of_nat original_length));
                             (py "summary_length",
                              JInt (Z.of_nat (length summary)));
                             (py "ai_model", JStr (py "Gemini Pro"))])))
      (fun e =>
         Ret (jsonify_with
                (JObj [(py "error",
                        JStr (py "AI summarization failed: " ++ exn_str e));
                       (py "details",
                        JStr (py "Check server logs for more information"))])
                500)).

Definition user_agent : pystr :=
  py "Mozilla/5.0 (Windows NT 10.0; Win64; x64) AppleWebKit/537.36 (KHTML, like Gecko) Chrome/91.0.4472.124 Safari/537.36".

(** The request [extract_from_url] sends for a page. *)
Definition page_request (url : json) : http_request :=
  HttpRequest url [] [(py "User-Agent", user_agent)] 15.

(** [response.raise_for_status()] *)
Definition raise_for_status (response : http_response) : io unit :=
  if ((400 <=? status_code response) && (status_code response <? 600))%Z
  then Raise (Exn RequestException (http_error_str response))
  else Ret tt.

Definition extract_prompt (title_text excerpt : pystr) : pystr :=
  lines ["Please provide a comprehensive summary of this article:";
         "                ";
         "                Title: "]
  ++ title_text ++ [10%N]
  ++ lines ["                ";
            "                Content:";
            "                "]
  ++ excerpt ++ [10%N]
  ++ lines ["                ";
            "                Provide a summary that includes:";
            "                1. Main topic and key points";
            "                2. Important facts or findings";
            "                3. Conclusions or implications";
            "                ";
            "                Keep it concise (3-5 sentences).";
            "                ";
            "                Summary:"].

(** The [result] dictionary before the summary is added. *)
Definition extraction_result (url : json) (title_text article_content : pystr)
  : list (pystr * json) :=
  [(py "url", url);
   (py "title", JStr title_text);
   (py "content", JStr (slice_to 5000 article_content));
   (py "content_length", JInt (Z.of_nat (length article_content)))].

(** The block [if summarize and article_content and gemini_model: ...
    elif summarize and not gemini_model: ...] that adds the summary to
    [result]. *)
Definition add_summary (cfg : config) (summarize : json)
  (title_text article_content : pystr) (result : list (pystr * json))
  : io (list (pystr * json)) :=
  if truthy summarize && negb (is_empty article_content) && has_model cfg then
    try_except
      (summary_response <- generate_content
         (GenRequest
            (extract_prompt title_text (slice_to 3000 article_content))
            800 false) ;;
       summary <- lift (text_of summary_response) ;;
       Ret (dict_set (dict_set result (py "summary") (JStr summary))
              (py "ai_model") (JStr (py "Gemini 1.5"))))
      (fun _ =>
         Ret (dict_set result (py "summary")
                (JStr (py "Summary generation unavailable. Please configure Gemini API key."))))
  else if truthy summarize && negb (has_model cfg) then
    Ret (dict_set result (py "summary")
           (JStr (py "AI summarization unavailable. Please configure Gemini API key in .env file.")))
  else Ret result.

(** [/api/extract-url].  [get_json] and the two [data.get] run before the
    [try]; inside it a [RequestException] and any other exception both
    end in status 500, with different messages. *)
Definition extract_from_url (cfg : config) (rq : request)
  : io flask_response :=
  if is_options rq then Ret no_content
  else
    data <- lift (get_json rq) ;;
    url <- lift (py_get data (py "url") (JStr [])) ;;
    summarize <- lift (py_get data (py "summarize") (JBool true)) ;;
    if negb (truthy url) then
      Ret (jsonify_with (error_body (JStr (py "URL is required"))) 400)
    else
      try_except
        (response <- requests_get (page_request url) ;;
         _ <- raise_for_status response ;;
         let doc := decompose_all unwanted (html_parser (content response)) in
         let title_text := title_text_of doc in
         let article_content := article_content_of doc in
         let result := extraction_result url title_text article_content in
         result <- add_summary cfg summarize title_text article_content
                     result ;;
         Ret (jsonify (JObj result)))
        (fun e =>
           if is_request_exception e then
             Ret (jsonify_with
                    (error_body (JStr (py "Failed to fetch URL: " ++ exn_str e)))
                    500)
           else Ret (jsonify_with (error_body (JStr (exn_str e))) 500)).

End Handlers.

End App.
Import App.

(** ** The extractor as the specification words it *)

Module ExtractorSpec.

(** "The first selector whose match has non-empty text": a selector
    whose match has no text is passed over. *)
Fixpoint spec_first_nonempty (sels : list selector) (doc : soup)
  : option pystr :=
  match sels with
  | [] => None
  | sel :: rest =>
      match select_one sel doc with
      | Some el =>
          if is_empty (get_text_sep_strip space el)
          then spec_first_nonempty rest doc
          else Some (get_text_sep_strip space el)
      | None => spec_first_nonempty rest doc
      end
  end.

(** The extractor with that selection: the paragraphs only when no
    selector has a match with text. *)
Definition spec_extract_content (page : soup) : pystr :=
  let doc := decompose_all unwanted page in
  collapse_whitespace
    (match spec_first_nonempty container_selectors doc with
     | Some t => t
     | None => paragraph_fallback doc
     end).

(** "The space-joined text of all paragraph elements, with whitespace
    collapsed". *)
Definition spec_joined_paragraph_text (doc : soup) : pystr :=
  collapse_whitespace (join space (map get_text (find_all [py "p"] doc))).

(** The text of one element as the extractor returns it. *)
Definition element_text (el : node) : pystr :=
  collapse_whitespace (get_text_sep_strip space el).

End ExtractorSpec.
Import ExtractorSpec.

(** Pages used below. *)
Definition empty_article_then_main : soup :=
  [Element (py "article") [] [];
   Element (py "main") [] [Text (py "Hello")]].

Definition empty_article_then_paragraph : soup :=
  [Element (py "article") [] [];
   Element (py "p") [] [Text (py "Hello")]].

Definition paragraphs_only : soup :=
  [Element (py "div") []
     [Element (py "p") [] [Text (py " one  two ")];
      Element (py "p") [] [Text (py "  ")];
      Element (py "p") [] [Text (py "three")]];
   Element (py "footer") [] [Element (py "p") [] [Text (py "imprint")]]].

Definition article_with_text : soup :=
  [Element (py "p") [] [Text (py "teaser")];
   Element (py "div") []
     [Element (py "article") [] [Text (py " The  story ")]]].

(** Configurations, requests and worlds used below. *)
Definition epoch_isoformat (t : Z) : pystr := py "1970-01-01T00:00:00".

Definition with_news_key : config := Config (Some (py "k")) None.
Definition without_keys : config := Config None None.

Definition get_request : request :=
  Request (py "GET") []
    (inl (Exn HTTPException (py "415 Unsupported Media Type"))).

Definition post_request (data : json) : request :=
  Request (py "POST") [] (inr data).

(** A world in which every [requests.get] is answered with [response],
    the clock reads 0, every draw gives the lower bound and the model
    always raises. *)
Definition answering (response : http_response) : world :=
  World (fun _ => 0%Z) (fun _ lo _ => lo)
    (fun _ _ => inr response)
    (fun _ _ => inl (Exn OtherException (py "model unavailable"))).




Definition unavailable : http_response :=
  HttpResponse 503 []
    (inr (JObj [(py "status", JStr (py "error"));
                (py "message", JStr (py "Service unavailable"))]))
    (py "503 Server Error").

(** A page whose only container is a [template] element. *)
Definition template_container : soup :=
  [Element (py "template") [(py "class", AttrList [py "post-content"])]
     [Special TemplateString (py "Hello")];
   Element (py "p") [] [Text (py "para")]].

(** A stand-in for the parser: the page is one article element holding
    the bytes as its text. *)
Definition text_page_parser (bytes : list N) : soup :=
  [Element (py "article") [] [Text bytes]].

Definition short_page : http_response :=
  HttpResponse 200 (py " Hello   world ")
    (inl (Exn RequestException (py "Expecting value"))) [].

Definition long_page : http_response :=
  HttpResponse 200 (repeat 97%N 5001)
    (inl (Exn RequestException (py "Expecting value"))) [].

Definition extract_request : request :=
  post_request (JObj [(py "url", JStr (py "https://example.com/a"))]).


(** ** Start-up: choosing the Gemini model *)

Module Startup.

(** One entry of [genai.list_models()]. *)
Record listed_model := ListedModel {
  model_name : pystr;
  supported_generation_methods : list pystr
}.

(** What one turn of the model loop meets: [GenerativeModel(name)] raises,
    or the model is built and the test request (or reading its [.text])
    raises, or the test answers with a text. *)
Inductive probe_result :=
| ConstructorRaises
| GenerateRaises
| Answered (text : pystr).

(** The [google.generativeai] library as the start-up code meets it:
    whether [configure] raises, the models the iteration over
    [list_models()] yields before it ends or raises, and what the [i]-th
    turn of the model loop meets for a name. *)
Record genai := Genai {
  configure_raises : bool;
  listed : list listed_model;
  probe : nat -> pystr -> probe_result
}.

(** The names found by the listing loop: those whose
    [supported_generation_methods] contain ['generateContent']. *)
Definition available_models (g : genai) : list pystr :=
  map model_name
    (filter (fun m => existsb (pystr_eqb (py "generateContent"))
                        (supported_generation_methods m))
       (listed g)).

(** The hard-coded names, in order of preference. *)
Definition preferred_models : list pystr :=
  [py "gemini-1.5-flash-latest"; py "gemini-1.5-flash";
   py "gemini-1.5-pro-latest"; py "gemini-1.5-pro"; py "gemini-pro";
   py "models/gemini-1.5-flash-latest"; py "models/gemini-1.5-flash";
   py "models/gemini-pro"].

(** [model_names_to_try] after [extend(available_models)] *)
Definition model_names_to_try (g : genai) : list pystr :=
  preferred_models ++ available_models g.

(** The loop [for model_name in model_names_to_try], from its [i]-th turn
    on: the state is the variable [gemini_model]; the result is that
    variable and [model_initialized].  The variable is assigned before the
    test request, so a model whose test fails stays in it. *)
Fixpoint try_models (probe : nat -> pystr -> probe_result) (i : nat)
  (names : list pystr) (gemini_model : option pystr)
  : option pystr * bool :=
  match names with
  | [] => (gemini_model, false)
  | name :: rest =>
      match probe i name with
      | ConstructorRaises => try_models probe (S i) rest gemini_model
      | GenerateRaises => try_models probe (S i) rest (Some name)
      | Answered text =>
          if is_empty text then try_models probe (S i) rest (Some name)
          else (Some name, true)
      end
  end.

(** The module-level code that sets [gemini_model], for the value of
    [GEMINI_API_KEY]. *)
Definition init_gemini_model (GEMINI_API_KEY : option pystr) (g : genai)
  : option pystr :=
  match GEMINI_API_KEY with
  | None => None
  | Some key =>
      if is_empty key then None
      else if configure_raises g then None
      else
        let (gemini_model, model_initialized) :=
          try_models (probe g) 0 (model_names_to_try g) None in
        if model_initialized then gemini_model else None
  end.

(** A turn that ends the loop: the test answered with a non-empty text. *)
Definition answers (r : probe_result) : bool :=
  match r with
  | Answered text => negb (is_empty text)
  | _ => false
  end.

End Startup.
Import Startup.

(** ** The status endpoints *)

Module Status.

(** [/api/health], for the text of [datetime.now().isoformat()]. *)
Definition health_check (cfg : config) (server_time : pystr)
  : flask_response :=
  jsonify
    (JObj [(py "status", JStr (py "healthy"));
           (py "news_api_configured", JBool (negb (no_news_key cfg)));
           (py "gemini_ai_configured", JBool (has_model cfg));
           (py "server_time", JStr server_time);
           (py "endpoints",
            JObj [(py "trending", JStr (py "/api/trending?category=general"));
                  (py "search", JStr (py "/api/search (POST)"));
                  (py "summarize", JStr (py "/api/summarize (POST)"));
                  (py "extract_url", JStr (py "/api/extract-url (POST)"))])]).

End Status.
Import Status.

(** A word: not empty and free of whitespace. *)
Definition is_word (sp : N -> bool) (w : pystr) : Prop :=
  w <> [] /\ forallb (fun c => negb (sp c)) w = true.

(** [article_content] as the loop and the fallback leave it, before the
    whitespace clean-up. *)
Definition raw_article_content (doc : soup) : pystr :=
  if is_empty (try_containers container_selectors doc)
  then paragraph_fallback doc
  else try_containers container_selectors doc.

(** ** Counting calls *)

Definition upstream_calls (t : list event) : nat :=
  length (filter is_upstream_call t).

Definition ai_calls (t : list event) : nat :=
  length (filter is_ai_call t).

(** Whether [len(v)] is defined. *)
Definition has_len (v : json) : bool :=
  match v with
  | JStr _ | JArr _ | JObj _ => true
  | _ => false
  end.

(** The bodies [summarize_article] answers with status 400: a body that
    Python counts as false ([None], an empty dictionary, list or string,
    0, [False]), or a dictionary whose [text], read with [''] as default,
    has a length and counts as false (absent, or an empty string, list or
    dictionary). *)
Definition rejected_as_empty (data : json) : bool :=
  negb (truthy data)
  || match data with
     | JObj fields =>
         has_len (field_or_empty fields (py "text"))
         && negb (truthy (field_or_empty fields (py "text")))
     | _ => false
     end.

(** The traces [extract_from_url] can leave: nothing, the page fetch
    alone, or the page fetch followed by one call of the model. *)
Definition fetch_then_model (t : list event) : bool :=
  match t with
  | [] => true
  | [EvRequestsGet _] => true
  | [EvRequestsGet _; EvGenerateContent _] => true
  | _ => false
  end.



(** The text a call of the model ends in: the call or the reading of
    [.text] may raise. *)
Definition model_text (out : exn + gen_response) : exn + pystr :=
  match out with
  | inl e => inl e
  | inr reply => text_of reply
  end.


(** A random source that keeps to the bounds it is given. *)
Definition within_bounds (w : world) : Prop :=
  forall n lo hi, (lo <= hi)%Z ->
    (lo <= randint_at w n lo hi <= hi)%Z.

(** The hour offsets [get_demo_articles] draws when it starts after [n]
    calls, in the order of the articles. *)
Definition demo_offsets (w : world) (n : nat) : list Z :=
  [randint_at w (1 + n) 1 5; randint_at w (2 + n) 6 12;
   randint_at w (3 + n) 13 24; randint_at w (4 + n) 25 36;
   randint_at w (5 + n) 37 48; randint_at w (6 + n) 49 72].

(** [article['publishedAt']] and the like. *)
Definition article_field (k : pystr) (article : json) : option json :=
  match article with
  | JObj fields => dict_get fields k
  | _ => None
  end.


(** More configurations, pages and worlds used below. *)
Definition with_model : config := Config None (Some (py "gemini-pro")).


(** A world in which every page request gives [short_page] and the model
    answers every prompt with the same text. *)
Definition summarizing : world :=
  World (fun _ => 0%Z) (fun _ lo _ => lo)
    (fun _ _ => inr short_page)
    (fun _ _ => inr (GenResponse (inr (py "A summary.")))).

Definition summarize_request (text : json) : request :=
  post_request (JObj [(py "text", text)]).

(** A library in which only [gemini-pro] answers its test, and which
    lists one more model. *)
Definition only_gemini_pro : genai :=
  Genai false
    [ListedModel (py "models/gemini-2.0-flash") [py "generateContent"];
     ListedModel (py "models/embedding-001") [py "embedContent"]]
    (fun _ name =>
       if pystr_eqb name (py "gemini-pro") then Answered (py "OK")
       else GenerateRaises).

(** * Properties *)

(** The model on small inputs. *)
Example split_demo :
  split (py "  a  bc d ") = [py "a"; py "bc"; py "d"].
Proof. reflexivity. Qed.

Example strip_demo : strip (py "  a  bc d ") = py "a  bc d".
Proof. reflexivity. Qed.

Example template_demo : extract_content template_container = py "Hello".
Proof. reflexivity. Qed.

Example extract_demo :
  extract_content
    [Element (py "nav") [] [Text (py "menu")];
     Element (py "div") [(py "class", AttrList [py "x"; py "post-content"])]
       [Text (py " Hello "); Element (py "script") [] [Text (py "js")];
        Element (py "b") [] [Text (py "big" ++ [10%N] ++ py "  world")]];
     Element (py "p") [] [Text (py "para")]]
  = py "Hello big world".
Proof. reflexivity. Qed.

(** ** Splitting, stripping and joining *)

Module PyStrFacts.

Section SplitOn.

Variable sp : N -> bool.

Lemma split_on_sep_head (c : N) (s : pystr) :
  sp c = true -> split_on sp (c :: s) = split_on sp s.
Proof. intros H. simpl. now rewrite H. Qed.

Lemma split_on_word_head (c : N) (s : pystr) :
  sp c = false -> split_on sp (c :: s) <> [].
Proof.
  intros H. simpl. rewrite H.
  destruct s as [|d s']; [discriminate|].
  destruct (sp d); [discriminate|].
  destruct (split_on sp (d :: s')); discriminate.
Qed.

(** A separator at the cut: the words of the two sides do not merge. *)
Lemma split_on_app (a t : pystr) :
  match t with [] => True | c :: _ => sp c = true end ->
  split_on sp (a ++ t) = split_on sp a ++ split_on sp t.
Proof.
  intros Ht. induction a as [|x a IH].
  - reflexivity.
  - change ((x :: a) ++ t) with (x :: (a ++ t)).
    destruct (sp x) eqn:Hx.
    + rewrite !split_on_sep_head by assumption. exact IH.
    + destruct a as [|d a'].
      * destruct t as [|c t'].
        -- simpl. rewrite Hx. reflexivity.
        -- simpl. rewrite Hx, Ht. reflexivity.
      * change (split_on sp (x :: (d :: a') ++ t))
          with (if sp x then split_on sp ((d :: a') ++ t)
                else if sp d then [x] :: split_on sp ((d :: a') ++ t)
                else match split_on sp ((d :: a') ++ t) with
                     | w :: ws => (x :: w) :: ws
                     | [] => [[x]]
                     end).
        change (split_on sp (x :: d :: a'))
          with (if sp x then split_on sp (d :: a')
                else if sp d then [x] :: split_on sp (d :: a')
                else match split_on sp (d :: a') with
                     | w :: ws => (x :: w) :: ws
                     | [] => [[x]]
                     end).
        rewrite Hx, IH.
        destruct (sp d) eqn:Hd; [reflexivity|].
        pose proof (split_on_word_head d a' Hd) as Hne.
        destruct (split_on sp (d :: a')); [contradiction|reflexivity].
Qed.

Lemma split_on_all_sep (t : pystr) :
  forallb sp t = true -> split_on sp t = [].
Proof.
  induction t as [|c t IH]; [reflexivity|].
  simpl forallb. intros H. apply andb_true_iff in H as [Hc Ht].
  rewrite split_on_sep_head by assumption. auto.
Qed.

Lemma split_on_app_seps (a t : pystr) :
  forallb sp t = true -> split_on sp (a ++ t) = split_on sp a.
Proof.
  intros H. rewrite split_on_app.
  - rewrite (split_on_all_sep t H). apply app_nil_r.
  - destruct t; [exact I|]. simpl in H. now apply andb_true_iff in H.
Qed.

End SplitOn.

(** What [lstrip] removes is whitespace. *)
Lemma lstrip_decompose (s : pystr) :
  exists u, s = u ++ lstrip s /\ forallb isspace u = true.
Proof.
  induction s as [|c s [u [Hs Hu]]].
  - exists []. now split.
  - simpl. destruct (isspace c) eqn:Hc.
    + exists (c :: u). split.
      * simpl. now rewrite <- Hs.
      * simpl. now rewrite Hc.
    + exists []. now split.
Qed.

Lemma split_lstrip (s : pystr) : split (lstrip s) = split s.
Proof.
  unfold split. induction s as [|c s IH]; [reflexivity|].
  simpl lstrip. destruct (isspace c) eqn:Hc; [|reflexivity].
  now rewrite split_on_sep_head.
Qed.

Lemma split_rstrip (s : pystr) : split (rstrip s) = split s.
Proof.
  unfold rstrip.
  destruct (lstrip_decompose (rev s)) as [u [Hs Hu]].
  assert (Hrev : s = rev (lstrip (rev s)) ++ rev u).
  { rewrite <- rev_app_distr, <- Hs. symmetry. apply rev_involutive. }
  rewrite Hrev at 2. unfold split. rewrite split_on_app_seps; [reflexivity|].
  rewrite forallb_forall in *. intros x Hx. apply Hu. now apply in_rev.
Qed.

Lemma split_strip (s : pystr) : split (strip s) = split s.
Proof. unfold strip. now rewrite split_rstrip, split_lstrip. Qed.

Lemma strip_empty_split (s : pystr) : strip s = [] -> split s = [].
Proof. intros H. rewrite <- split_strip, H. reflexivity. Qed.

(** Splitting a space-joined text gives the words of the parts, in order. *)
Lemma split_join_space (parts : list pystr) :
  split (join space parts) = concat (map split parts).
Proof.
  induction parts as [|p rest IH]; [reflexivity|].
  destruct rest as [|q rest].
  - simpl. now rewrite app_nil_r.
  - change (join space (p :: q :: rest))
      with (p ++ 32%N :: join space (q :: rest)).
    unfold split at 1. rewrite split_on_app by reflexivity.
    rewrite split_on_sep_head by reflexivity.
    change (split_on isspace (join space (q :: rest)))
      with (split (join space (q :: rest))).
    rewrite IH. reflexivity.
Qed.

End PyStrFacts.

(** ** The parsed page *)

Module SoupFacts.

Section NodeInduction.

Variable P : node -> Prop.
Hypothesis P_text : forall s, P (Text s).
Hypothesis P_special : forall kind s, P (Special kind s).
Hypothesis P_element :
  forall nm attrs children, Forall P children -> P (Element nm attrs children).

(** Induction over a node with the hypothesis for every child. *)
Lemma node_ind_children : forall n, P n.
Proof.
  fix IH 1. intros [s|kind s|nm attrs children].
  - apply P_text.
  - apply P_special.
  - apply P_element.
    induction children as [|c cs IHcs]; constructor; [apply IH|exact IHcs].
Qed.

End NodeInduction.

Lemma find_hd_filter {A : Type} (f g : A -> bool) (l : list A) :
  (forall x, f x = g x) -> List.find f l = hd_error (filter g l).
Proof.
  intros Hfg. induction l as [|x l IH]; [reflexivity|].
  simpl. rewrite <- Hfg. destruct (f x); [reflexivity|exact IH].
Qed.

Lemma find_none_all {A : Type} (f : A -> bool) (l : list A) :
  (forall x, In x l -> f x = false) -> List.find f l = None.
Proof.
  induction l as [|x l IH]; [reflexivity|].
  intros H. simpl. rewrite (H x (or_introl eq_refl)).
  apply IH. intros y Hy. apply H. now right.
Qed.

(** A type selector picks the first element [find_all] lists. *)
Lemma select_one_type (name : pystr) (doc : soup) :
  select_one (SelType name) doc = hd_error (find_all [name] doc).
Proof.
  unfold select_one, find_all. apply find_hd_filter.
  intros [s|kind s|nm attrs children]; try reflexivity.
  simpl. now rewrite orb_false_r.
Qed.

(** Removal changes neither the name nor the attributes of what stays. *)
Lemma matches_decompose_node (sel : selector) (names : list pystr) (n : node) :
  matches sel (decompose_node names n) = matches sel n.
Proof. destruct n; reflexivity. Qed.

Lemma in_kept (names : list pystr) (c' : node) (l : list node) :
  In c' (flat_map (fun c => if name_in names c then []
                            else [decompose_node names c]) l) ->
  exists c, In c l /\ c' = decompose_node names c.
Proof.
  intros H. apply in_flat_map in H as [c [Hc Hin]].
  exists c. split; [assumption|].
  destruct (name_in names c); simpl in Hin; [contradiction|].
  destruct Hin as [<-|[]]. reflexivity.
Qed.

(** Every node left below a node was there before. *)
Lemma descendants_decompose_node (names : list pystr) (n m : node) :
  In m (descendants (decompose_node names n)) ->
  exists m0, In m0 (descendants n) /\ m = decompose_node names m0.
Proof.
  revert m. induction n as [s|kind s|nm attrs children IH]
    using node_ind_children; intros m Hm; try contradiction.
  simpl in Hm. apply in_flat_map in Hm as [c' [Hc' Hm]].
  apply in_kept in Hc' as [c [Hc ->]].
  rewrite Forall_forall in IH.
  destruct Hm as [<-|Hm].
  - exists c. split; [|reflexivity].
    simpl. apply in_flat_map. exists c. split; [assumption|now left].
  - destruct (IH c Hc m Hm) as [m0 [Hm0 ->]].
    exists m0. split; [|reflexivity].
    simpl. apply in_flat_map. exists c. split; [assumption|now right].
Qed.

Lemma soup_descendants_decompose (names : list pystr) (doc : soup) (m : node) :
  In m (soup_descendants (decompose_all names doc)) ->
  exists m0, In m0 (soup_descendants doc) /\ m = decompose_node names m0.
Proof.
  unfold soup_descendants, decompose_all. intros Hm.
  apply in_flat_map in Hm as [c' [Hc' Hm]].
  apply in_kept in Hc' as [c [Hc ->]].
  destruct Hm as [<-|Hm].
  - exists c. split; [|reflexivity].
    apply in_flat_map. exists c. split; [assumption|now left].
  - apply descendants_decompose_node in Hm as [m0 [Hm0 ->]].
    exists m0. split; [|reflexivity].
    apply in_flat_map. exists c. split; [assumption|now right].
Qed.

(** A selector that matches nothing in the page matches nothing after the
    removal either. *)
Lemma select_one_decompose_none (sel : selector) (names : list pystr)
  (page : soup) :
  select_one sel page = None ->
  select_one sel (decompose_all names page) = None.
Proof.
  unfold select_one. intros Hnone. apply find_none_all. intros m Hm.
  apply soup_descendants_decompose in Hm as [m0 [Hm0 ->]].
  rewrite matches_decompose_node.
  exact (find_none _ _ Hnone m0 Hm0).
Qed.

End SoupFacts.

(** ** The content extractor *)

Module ExtractorFacts.

Import PyStrFacts SoupFacts.

(** The loop stops at the first selector that matches an element, and
    yields the empty string when none does. *)
Lemma try_containers_first_match (sels : list selector) (doc : soup) :
  (exists before sel after el,
      sels = before ++ sel :: after
      /\ (forall s, In s before -> select_one s doc = None)
      /\ select_one sel doc = Some el
      /\ try_containers sels doc = get_text_sep_strip space el)
  \/ ((forall s, In s sels -> select_one s doc = None)
      /\ try_containers sels doc = []).
Proof.
  induction sels as [|sel rest IH].
  - right. split; [intros s []|reflexivity].
  - simpl. destruct (select_one sel doc) as [el|] eqn:Hsel.
    + left. exists [], sel, rest, el. repeat split; auto. intros s [].
    + destruct IH as [[before [sel' [after [el [Heq [Hnone [Hsome Htry]]]]]]]
                     |[Hnone Htry]].
      * left. exists (sel :: before), sel', after, el.
        repeat split; auto.
        -- simpl. now rewrite Heq.
        -- intros s [<-|Hs]; auto.
      * right. split; [|assumption].
        intros s [<-|Hs]; auto.
Qed.

(** The words of the stripped, non-empty paragraph texts are the words of
    all paragraph texts. *)
Lemma words_of_kept_paragraphs (ps : list node) :
  concat (map split
            (map (fun p => strip (get_text p))
               (filter (fun p => negb (is_empty (strip (get_text p)))) ps)))
  = concat (map split (map get_text ps)).
Proof.
  induction ps as [|p ps IH]; [reflexivity|].
  simpl. destruct (is_empty (strip (get_text p))) eqn:He; simpl.
  - rewrite strip_empty_split; [exact IH|].
    destruct (strip (get_text p)); [reflexivity|discriminate].
  - rewrite split_strip, IH. reflexivity.
Qed.

Lemma collapse_paragraph_fallback (doc : soup) :
  collapse_whitespace (paragraph_fallback doc) = spec_joined_paragraph_text doc.
Proof.
  unfold spec_joined_paragraph_text, collapse_whitespace, paragraph_fallback.
  now rewrite !split_join_space, words_of_kept_paragraphs.
Qed.

(** C1 as stated fails: on [<article></article><main>Hello</main>] the
    first selector matches an element without text and the second one an
    element with the text [Hello]; the specification's selection gives
    [Hello], the extractor stops at the article and, with no paragraph to
    fall back on, returns the empty string. *)
Lemma later_selector_not_consulted :
  select_one (SelType (py "article"))
    (decompose_all unwanted empty_article_then_main)
  = Some (Element (py "article") [] [])
  /\ get_text_sep_strip space (Element (py "article") [] []) = []
  /\ select_one (SelType (py "main"))
       (decompose_all unwanted empty_article_then_main)
     = Some (Element (py "main") [] [Text (py "Hello")])
  /\ get_text_sep_strip space (Element (py "main") [] [Text (py "Hello")])
     = py "Hello"
  /\ spec_extract_content empty_article_then_main = py "Hello"
  /\ extract_content empty_article_then_main = []
  /\ extract_content empty_article_then_main
     <> spec_extract_content empty_article_then_main.
Proof. repeat split; try reflexivity. vm_compute. discriminate. Qed.

(** C1, amended: after the removal of the unwanted elements the extractor
    takes the first selector, in the fixed order, that matches an element
    at all; no selector before it matches.  If that element has text the
    result is its text with whitespace collapsed; if it has none, or if no
    selector matches, the result is the paragraph text. *)
Theorem first_matching_selector_decides (page : soup) :
  let doc := decompose_all unwanted page in
  (exists before sel after el,
      container_selectors = before ++ sel :: after
      /\ (forall s, In s before -> select_one s doc = None)
      /\ select_one sel doc = Some el
      /\ extract_content page
         = if is_empty (get_text_sep_strip space el)
           then spec_joined_paragraph_text doc
           else element_text el)
  \/ ((forall s, In s container_selectors -> select_one s doc = None)
      /\ extract_content page = spec_joined_paragraph_text doc).
Proof.
  intros doc. unfold extract_content, article_content_of. fold doc.
  destruct (try_containers_first_match container_selectors doc)
    as [[before [sel [after [el [Heq [Hnone [Hsome Htry]]]]]]]|[Hnone Htry]].
  - left. exists before, sel, after, el. repeat split; auto.
    rewrite Htry. destruct (is_empty (get_text_sep_strip space el)).
    + apply collapse_paragraph_fallback.
    + reflexivity.
  - right. split; [assumption|].
    rewrite Htry. simpl. apply collapse_paragraph_fallback.
Qed.

(** C2 as stated fails: [<article></article><p>Hello</p>] contains an
    article element, whose text is empty, and the extractor returns the
    text of the paragraph next to it. *)
Lemma empty_article_falls_back_to_paragraphs :
  In (Element (py "article") [] [])
     (find_all [py "article"] empty_article_then_paragraph)
  /\ element_text (Element (py "article") [] []) = []
  /\ extract_content empty_article_then_paragraph = py "Hello"
  /\ extract_content empty_article_then_paragraph
     <> element_text (Element (py "article") [] []).
Proof.
  repeat split; try reflexivity.
  - vm_compute. now left.
  - vm_compute. discriminate.
Qed.

(** C2, amended: when an article element is left after the removal of the
    unwanted elements and the first one has text, the extractor returns
    that element's text, whitespace collapsed, whatever paragraphs the
    page has elsewhere. *)
Theorem article_with_text_wins (page : soup) (a : node) (others : list node) :
  find_all [py "article"] (decompose_all unwanted page) = a :: others ->
  is_empty (get_text_sep_strip space a) = false ->
  extract_content page = element_text a.
Proof.
  intros Hfind Htext.
  unfold extract_content, article_content_of, container_selectors.
  simpl try_containers. rewrite select_one_type, Hfind. simpl hd_error.
  cbv iota. rewrite Htext. reflexivity.
Qed.

(** An article with text next to a teaser paragraph. *)
Lemma article_with_text_wins_witness :
  find_all [py "article"] (decompose_all unwanted article_with_text)
  = [Element (py "article") [] [Text (py " The  story ")]]
  /\ element_text (Element (py "article") [] [Text (py " The  story ")])
     = py "The story"
  /\ extract_content article_with_text = py "The story".
Proof.
  split; [reflexivity|]. split; [reflexivity|].
  apply (article_with_text_wins article_with_text
           (Element (py "article") [] [Text (py " The  story ")]) []);
    reflexivity.
Defined.

(** C3 as stated fails: in [paragraphs_only] no container selector
    matches, and the text of all its paragraph elements is
    [one two three imprint]; the extractor removes the footer with its
    paragraph first and returns [one two three]. *)
Lemma removed_paragraphs_are_not_joined :
  (forall sel, In sel container_selectors ->
     select_one sel paragraphs_only = None)
  /\ spec_joined_paragraph_text paragraphs_only = py "one two three imprint"
  /\ extract_content paragraphs_only = py "one two three"
  /\ extract_content paragraphs_only
     <> spec_joined_paragraph_text paragraphs_only.
Proof.
  split; [|split; [reflexivity|split; [reflexivity|]]].
  - intros sel Hsel. simpl in Hsel.
    repeat (destruct Hsel as [<-|Hsel]; [reflexivity|]). contradiction.
  - vm_compute. discriminate.
Qed.

(** C3, amended: when no container selector matches the page left by the
    removal of the unwanted elements (so, by [select_one_decompose_none],
    whenever none matches the page itself), the extractor returns the
    texts of all paragraph elements of that page, the ones the removal
    left, joined by spaces, with whitespace collapsed. *)
Theorem no_container_gives_paragraph_text (page : soup) :
  (forall sel, In sel container_selectors ->
     select_one sel (decompose_all unwanted page) = None) ->
  extract_content page
  = spec_joined_paragraph_text (decompose_all unwanted page).
Proof.
  intros Hnone. unfold extract_content, article_content_of.
  destruct (try_containers_first_match container_selectors
              (decompose_all unwanted page))
    as [[before [sel [after [el [Heq [_ [Hsome _]]]]]]]|[_ Htry]].
  - rewrite Hnone in Hsome; [discriminate|].
    rewrite Heq. apply in_or_app. right. now left.
  - rewrite Htry. simpl. apply collapse_paragraph_fallback.
Qed.

(** Three paragraphs, one of them blank, and one more inside a footer. *)
Lemma no_container_gives_paragraph_text_witness :
  spec_joined_paragraph_text (decompose_all unwanted paragraphs_only)
  = py "one two three"
  /\ extract_content paragraphs_only = py "one two three".
Proof.
  split; [reflexivity|].
  rewrite (no_container_gives_paragraph_text paragraphs_only).
  - reflexivity.
  - intros sel Hsel. simpl in Hsel.
    repeat (destruct Hsel as [<-|Hsel]; [reflexivity|]). contradiction.
Defined.

End ExtractorFacts.

(** ** Running handlers *)

Module RunFacts.

(** The calls of [m] come first, then those of the continuation. *)
Lemma run_bind {A B : Type} (w : world) (m : io A) (f : A -> io B) :
  forall n,
    run w n (bind m f)
    = match run w n m with
      | (inr a, t) =>
          let (r, t') := run w (length t + n) (f a) in (r, t ++ t')
      | (inl e, t) => (inl e, t)
      end.
Proof.
  induction m as [a|e|k IH|lo hi k IH|rq k IH|rq k IH]; intros n; simpl.
  - destruct (run w n (f a)); reflexivity.
  - reflexivity.
  - rewrite IH. destruct (run w (S n) (k (now_at w n))) as [[e|a] t];
      [reflexivity|].
    simpl. rewrite <- plus_n_Sm.
    destruct (run w (S (length t + n)) (f a)); reflexivity.
  - rewrite IH.
    destruct (run w (S n) (k (randint_at w n lo hi))) as [[e|a] t];
      [reflexivity|].
    simpl. rewrite <- plus_n_Sm.
    destruct (run w (S (length t + n)) (f a)); reflexivity.
  - rewrite IH.
    destruct (run w (S n) (k (requests_at w n rq))) as [[e|a] t];
      [reflexivity|].
    simpl. rewrite <- plus_n_Sm.
    destruct (run w (S (length t + n)) (f a)); reflexivity.
  - rewrite IH.
    destruct (run w (S n) (k (generate_at w n rq))) as [[e|a] t];
      [reflexivity|].
    simpl. rewrite <- plus_n_Sm.
    destruct (run w (S (length t + n)) (f a)); reflexivity.
Qed.

(** A handler runs only when the body raised, after the body's calls. *)
Lemma run_try_except {A : Type} (w : world) (m : io A) (h : exn -> io A) :
  forall n,
    run w n (try_except m h)
    = match run w n m with
      | (inr a, t) => (inr a, t)
      | (inl e, t) =>
          let (r, t') := run w (length t + n) (h e) in (r, t ++ t')
      end.
Proof.
  induction m as [a|e|k IH|lo hi k IH|rq k IH|rq k IH]; intros n; simpl.
  - reflexivity.
  - destruct (run w n (h e)); reflexivity.
  - rewrite IH. destruct (run w (S n) (k (now_at w n))) as [[e|a] t];
      [|reflexivity].
    simpl. rewrite <- plus_n_Sm.
    destruct (run w (S (length t + n)) (h e)); reflexivity.
  - rewrite IH.
    destruct (run w (S n) (k (randint_at w n lo hi))) as [[e|a] t];
      [|reflexivity].
    simpl. rewrite <- plus_n_Sm.
    destruct (run w (S (length t + n)) (h e)); reflexivity.
  - rewrite IH.
    destruct (run w (S n) (k (requests_at w n rq))) as [[e|a] t];
      [|reflexivity].
    simpl. rewrite <- plus_n_Sm.
    destruct (run w (S (length t + n)) (h e)); reflexivity.
  - rewrite IH.
    destruct (run w (S n) (k (generate_at w n rq))) as [[e|a] t];
      [|reflexivity].
    simpl. rewrite <- plus_n_Sm.
    destruct (run w (S (length t + n)) (h e)); reflexivity.
Qed.

(** [get_demo_articles] always returns, after seven calls. *)
Lemma run_get_demo_articles (isoformat : Z -> pystr) (w : world) (n : nat) :
  run w n (get_demo_articles isoformat)
  = (inr (demo_articles_at isoformat w n), demo_events).
Proof. reflexivity. Qed.

End RunFacts.

(** ** The request handlers *)

Module AppFacts.

Import RunFacts.

Section HandlerFacts.

Variable isoformat : Z -> pystr.
Variable html_parser : list N -> soup.
Variable py_str : json -> pystr.

(** C7, amended: a search request that is not the preflight and whose
    body is a JSON object with no [query], or one that Python counts as
    false (the empty string above all), is answered with status 400 and
    an [error] field, and the handler makes no call at all, so none to
    the news API. *)
Theorem empty_query_rejected (cfg : config) (rq : request) (w : world)
  (n : nat) (fields : list (pystr * json)) :
  is_options rq = false ->
  get_json rq = inr (JObj fields) ->
  truthy (field_or_empty fields (py "query")) = false ->
  exists r,
    run w n (search_news isoformat cfg rq) = (inr r, [])
    /\ status r = 400%Z
    /\ body_field r (py "error") = Some (JStr (py "Query is required"))
    /\ filter is_upstream_call (snd (run w n (search_news isoformat cfg rq)))
       = [].
Proof.
  intros Hopt Hjson Hq. unfold search_news. rewrite Hopt, Hjson.
  cbn [lift bind py_get]. fold (field_or_empty fields (py "query")).
  rewrite Hq. cbn [negb run snd].
  eexists. repeat split.
Qed.

(** C8, amended: a summarize request that is not the preflight and
    whose body is read is answered with status 400 and an [error] field,
    without any call, exactly when the body counts as false (null, an
    empty object, list or string, 0, false) or is a JSON object whose
    [text] is absent or an empty string, list or object.  For every other
    body the handler still returns a response, but not with status 400. *)
Theorem empty_text_rejected (cfg : config) (rq : request) (w : world)
  (n : nat) (data : json) :
  is_options rq = false ->
  get_json rq = inr data ->
  if rejected_as_empty data then
    exists r msg,
      run w n (summarize_article py_str cfg rq) = (inr r, [])
      /\ status r = 400%Z
      /\ body_field r (py "error") = Some (JStr msg)
      /\ filter is_ai_call (snd (run w n (summarize_article py_str cfg rq)))
         = []
  else
    exists r t,
      run w n (summarize_article py_str cfg rq) = (inr r, t)
      /\ status r <> 400%Z.
Proof.
  intros Hopt Hjson. unfold summarize_article, rejected_as_empty.
  rewrite Hopt, Hjson, run_try_except. cbn [lift bind].
  destruct (truthy data) eqn:Htruthy; cbn [negb orb].
  2:{ cbn [run snd]. do 2 eexists. repeat split. }
  destruct data as [| | | | | |fields]; cbn [py_get lift bind run];
    try (do 2 eexists; split; [reflexivity|discriminate]).
  fold (field_or_empty fields (py "text")).
  destruct (field_or_empty fields (py "text")) as [| | | |text|items|inner];
    cbn [has_len andb py_len lift bind run];
    try (do 2 eexists; split; [reflexivity|discriminate]).
  - destruct (truthy (JStr text)); cbn [negb].
    + destruct (has_model cfg); cbn [negb py_slice_to lift bind run].
      * cbn [generate_content bind run].
        destruct (generate_at w n _) as [e|reply]; cbn [lift bind run];
          [do 2 eexists; split; [reflexivity|discriminate]|].
        destruct (text_of reply) as [e|summary]; cbn [lift bind run];
          [do 2 eexists; split; [reflexivity|discriminate]|].
        destruct (is_empty summary); cbn [run];
          do 2 eexists; (split; [reflexivity|discriminate]).
      * do 2 eexists. split; [reflexivity|discriminate].
    + cbn [run snd]. do 2 eexists. repeat split.
  - destruct (truthy (JArr items)); cbn [negb].
    + destruct (has_model cfg); cbn [negb py_slice_to lift bind run].
      * cbn [generate_content bind run].
        destruct (generate_at w n _) as [e|reply]; cbn [lift bind run];
          [do 2 eexists; split; [reflexivity|discriminate]|].
        destruct (text_of reply) as [e|summary]; cbn [lift bind run];
          [do 2 eexists; split; [reflexivity|discriminate]|].
        destruct (is_empty summary); cbn [run];
          do 2 eexists; (split; [reflexivity|discriminate]).
      * do 2 eexists. split; [reflexivity|discriminate].
    + cbn [run snd]. do 2 eexists. repeat split.
  - destruct (truthy (JObj inner)); cbn [negb].
    + destruct (has_model cfg); cbn [negb py_slice_to lift bind run];
        do 2 eexists; (split; [reflexivity|discriminate]).
    + cbn [run snd]. do 2 eexists. repeat split.
Qed.





Lemma pystr_eqb_eq (a b : pystr) : pystr_eqb a b = true <-> a = b.
Proof.
  unfold pystr_eqb. destruct (list_eq_dec N.eq_dec a b); split;
    congruence.
Qed.

(** Setting one key leaves the others as they were. *)
Lemma dict_get_set_other (fields : list (pystr * json)) (k k' : pystr)
  (v : json) :
  k <> k' -> dict_get (dict_set fields k v) k' = dict_get fields k'.
Proof.
  intros Hne. induction fields as [|[k0 v0] rest IH]; simpl.
  - destruct (pystr_eqb k k') eqn:E; [|reflexivity].
    now apply pystr_eqb_eq in E.
  - destruct (pystr_eqb k0 k) eqn:E0; simpl.
    + apply pystr_eqb_eq in E0. subst k0.
      destruct (pystr_eqb k k') eqn:E; [|reflexivity].
      now apply pystr_eqb_eq in E.
    + rewrite IH. reflexivity.
Qed.

(** Adding the summary never raises, and touches only the keys [summary]
    and [ai_model]. *)
Lemma add_summary_keeps (cfg : config) (summarize : json)
  (title_text article_content : pystr) (result : list (pystr * json))
  (w : world) (n : nat) (k : pystr) :
  k <> py "summary" -> k <> py "ai_model" ->
  exists result' t,
    run w n (add_summary cfg summarize title_text article_content result)
    = (inr result', t)
    /\ dict_get result' k = dict_get result k.
Proof.
  intros Hs Ha. unfold add_summary.
  destruct (truthy summarize && negb (is_empty article_content)
            && has_model cfg).
  - rewrite run_try_except. cbn [generate_content bind run].
    destruct (generate_at w n _) as [e|reply]; cbn [lift bind run].
    + do 2 eexists. split; [reflexivity|].
      now rewrite dict_get_set_other by congruence.
    + destruct (text_of reply) as [e|summary]; cbn [lift bind run].
      * do 2 eexists. split; [reflexivity|].
        now rewrite dict_get_set_other by congruence.
      * do 2 eexists. split; [reflexivity|].
        now rewrite !dict_get_set_other by congruence.
  - destruct (truthy summarize && negb (has_model cfg)); cbn [run].
    + do 2 eexists. split; [reflexivity|].
      now rewrite dict_get_set_other by congruence.
    + do 2 eexists. split; reflexivity.
Qed.


(** The handler does return 200 when the request names a page and the
    page is fetched with a status below 400. *)
Lemma extract_from_url_returns (cfg : config) (rq : request) (w : world)
  (n : nat) (fields : list (pystr * json)) (page : http_response) :
  is_options rq = false ->
  get_json rq = inr (JObj fields) ->
  truthy (field_or_empty fields (py "url")) = true ->
  requests_at w n (page_request (field_or_empty fields (py "url")))
  = inr page ->
  (status_code page < 400)%Z ->
  exists r t,
    run w n (extract_from_url html_parser cfg rq) = (inr r, t)
    /\ status r = 200%Z.
Proof.
  intros Hopt Hjson Hurl Hreq Hst. unfold extract_from_url.
  rewrite Hopt, Hjson. cbn [lift bind py_get].
  fold (field_or_empty fields (py "url")). rewrite Hurl. cbn [negb].
  rewrite run_try_except. cbn [requests_get bind run]. rewrite Hreq.
  cbn [lift bind]. unfold raise_for_status.
  replace (400 <=? status_code page)%Z with false
    by (symmetry; apply Z.leb_gt; exact Hst).
  cbn [andb bind]. rewrite run_bind.
  match goal with
  | |- context [run w (S n) (add_summary ?c ?s ?tt ?a ?res)] =>
      destruct (add_summary_keeps c s tt a res w (S n) (py "content"))
        as [result' [t' [Hadd _]]]; [discriminate|discriminate|];
      rewrite Hadd
  end.
  cbn [run]. do 2 eexists. split; reflexivity.
Qed.

(** A response of [extract_from_url] with status 200 comes from a
    request whose body is a JSON object, and carries the text of the page
    fetched for the [url] of that object, cut at 5000. *)
Lemma extract_success_of_request (cfg : config) (rq : request) (w : world)
  (n : nat) (r : flask_response) (t : list event) :
  run w n (extract_from_url html_parser cfg rq) = (inr r, t) ->
  status r = 200%Z ->
  exists fields page,
    get_json rq = inr (JObj fields)
    /\ requests_at w n (page_request (field_or_empty fields (py "url")))
       = inr page
    /\ body_field r (py "content")
       = Some (JStr (firstn 5000
                       (extract_content (html_parser (content page))))).
Proof.
  unfold extract_from_url. intros Hrun Hst.
  destruct (is_options rq).
  { inversion Hrun; subst. discriminate. }
  destruct (get_json rq) as [e|data]; cbn [lift bind] in Hrun.
  { discriminate. }
  destruct data as [| | | | | |fields]; try discriminate.
  cbn [py_get lift bind] in Hrun.
  fold (field_or_empty fields (py "url")) in Hrun.
  destruct (truthy (field_or_empty fields (py "url"))); cbn [negb] in Hrun.
  2:{ inversion Hrun; subst. discriminate. }
  rewrite run_try_except in Hrun. cbn [requests_get bind run] in Hrun.
  destruct (requests_at w n (page_request (field_or_empty fields (py "url"))))
    as [e|page] eqn:Hreq; cbn [lift bind run] in Hrun.
  { destruct (is_request_exception e); inversion Hrun; subst; discriminate. }
  unfold raise_for_status in Hrun.
  destruct ((400 <=? status_code page) && (status_code page <? 600))%Z;
    cbn [bind run] in Hrun.
  { inversion Hrun; subst; discriminate. }
  rewrite run_bind in Hrun.
  set (doc := decompose_all unwanted (html_parser (content page))) in *.
  set (result := extraction_result _ _ _) in *.
  match type of Hrun with
  | context [add_summary ?c ?sm ?tt ?ac result] =>
      destruct (add_summary_keeps c sm tt ac result w (S n) (py "content"))
        as [result' [t' [Hadd Hcontent]]]; [discriminate|discriminate|]
  end.
  rewrite Hadd in Hrun. cbn [run] in Hrun. inversion Hrun; subst r t.
  exists fields, page. split; [reflexivity|]. split; [exact Hreq|].
  unfold body_field. cbn [body jsonify]. rewrite Hcontent. reflexivity.
Qed.

(** C9: in every successful response of the extraction handler the
    [content] field is the text extracted from the page fetched for the
    request's [url], cut after its first 5000 code points: it is a prefix
    of that text and its length is the smaller of 5000 and the length of
    the text, so never above 5000. *)
Theorem content_is_truncated_prefix (cfg : config) (rq : request) (w : world)
  (n : nat) (r : flask_response) (t : list event) :
  run w n (extract_from_url html_parser cfg rq) = (inr r, t) ->
  status r = 200%Z ->
  exists fields page c rest,
    get_json rq = inr (JObj fields)
    /\ requests_at w n (page_request (field_or_empty fields (py "url")))
       = inr page
    /\ body_field r (py "content") = Some (JStr c)
    /\ extract_content (html_parser (content page)) = c ++ rest
    /\ length c
       = Nat.min 5000 (length (extract_content (html_parser (content page))))
    /\ length c <= 5000.
Proof.
  intros Hrun Hst.
  destruct (extract_success_of_request cfg rq w n r t Hrun Hst)
    as [fields [page [Hjson [Hreq Hcontent]]]].
  exists fields, page,
    (firstn 5000 (extract_content (html_parser (content page)))),
    (skipn 5000 (extract_content (html_parser (content page)))).
  split; [exact Hjson|]. split; [exact Hreq|]. split; [exact Hcontent|].
  split; [symmetry; apply firstn_skipn|].
  rewrite length_firstn. split; [reflexivity|apply Nat.le_min_l].
Qed.


End HandlerFacts.






(** A search request with the empty string as query. *)
Lemma empty_query_rejected_witness :
  exists r,
    run (answering unavailable) 0
      (search_news epoch_isoformat with_news_key
         (post_request (JObj [(py "query", JStr [])])))
    = (inr r, [])
    /\ status r = 400%Z
    /\ body_field r (py "error") = Some (JStr (py "Query is required"))
    /\ filter is_upstream_call
         (snd (run (answering unavailable) 0
                 (search_news epoch_isoformat with_news_key
                    (post_request (JObj [(py "query", JStr [])])))))
       = [].
Proof.
  apply (empty_query_rejected epoch_isoformat with_news_key
           (post_request (JObj [(py "query", JStr [])]))
           (answering unavailable) 0 [(py "query", JStr [])]);
    reflexivity.
Defined.

(** C7 as stated fails: a search request whose body is JSON null, or a
    JSON list, has no [query]; [data.get] raises before the [try] and the
    handler returns no response at all, so no 400. *)
Lemma absent_query_without_object_raises :
  run (answering unavailable) 0
    (search_news epoch_isoformat with_news_key (post_request JNull))
  = (inl (Exn AttributeError
            (py "'NoneType' object has no attribute 'get'")), [])
  /\ run (answering unavailable) 0
       (search_news epoch_isoformat with_news_key (post_request (JArr [])))
     = (inl (Exn AttributeError (py "'list' object has no attribute 'get'")),
        []).
Proof. split; reflexivity. Qed.

(** C8 as stated fails: a summarize request whose [text] is JSON null is
    answered with status 500, because [len(text)] is evaluated before the
    test for an empty text; so is one whose [text] is 0. *)
Lemma null_text_is_not_rejected :
  (exists r t,
      run (answering unavailable) 0
        (summarize_article type_name with_model
           (post_request (JObj [(py "text", JNull)])))
      = (inr r, t)
      /\ status r = 500%Z /\ status r <> 400%Z)
  /\ (exists r t,
        run (answering unavailable) 0
          (summarize_article type_name with_model
             (post_request (JObj [(py "text", JInt 0)])))
        = (inr r, t)
        /\ status r = 500%Z /\ status r <> 400%Z).
Proof.
  split; do 2 eexists; (split; [vm_compute; reflexivity|]);
    (split; [reflexivity|discriminate]).
Qed.

(** A summarize request with the empty string as text, a model being
    configured. *)
Lemma empty_text_rejected_witness :
  exists r msg,
    run (answering unavailable) 0
      (summarize_article type_name (Config None (Some (py "gemini-pro")))
         (post_request (JObj [(py "text", JStr [])])))
    = (inr r, [])
    /\ status r = 400%Z
    /\ body_field r (py "error") = Some (JStr msg)
    /\ filter is_ai_call
         (snd (run (answering unavailable) 0
                 (summarize_article type_name
                    (Config None (Some (py "gemini-pro")))
                    (post_request (JObj [(py "text", JStr [])])))))
       = [].
Proof.
  apply (empty_text_rejected type_name (Config None (Some (py "gemini-pro")))
           (post_request (JObj [(py "text", JStr [])]))
           (answering unavailable) 0 (JObj [(py "text", JStr [])]));
    reflexivity.
Defined.

(** A page of 5001 code points: the content is its first 5000. *)
Lemma content_is_truncated_prefix_witness :
  exists r t,
    run (answering long_page) 0
      (extract_from_url text_page_parser without_keys extract_request)
    = (inr r, t)
    /\ status r = 200%Z
    /\ body_field r (py "content") = Some (JStr (repeat 97%N 5000))
    /\ exists fields page c rest,
        get_json extract_request = inr (JObj fields)
        /\ requests_at (answering long_page) 0
             (page_request (field_or_empty fields (py "url")))
           = inr page
        /\ body_field r (py "content") = Some (JStr c)
        /\ extract_content (text_page_parser (content page)) = c ++ rest
        /\ length c
           = Nat.min 5000
               (length (extract_content (text_page_parser (content page))))
        /\ length c <= 5000.
Proof.
  do 2 eexists. split; [vm_compute; reflexivity|]. split; [reflexivity|].
  split; [vm_compute; reflexivity|].
  eapply (content_is_truncated_prefix text_page_parser without_keys
            extract_request (answering long_page) 0);
    [vm_compute; reflexivity|reflexivity].
Defined.


End AppFacts.

(** ** The whitespace clean-up *)

Module CleanupFacts.

Import PyStrFacts.

Lemma split_on_gives_words (sp : N -> bool) (s : pystr) :
  Forall (is_word sp) (split_on sp s).
Proof.
  induction s as [|c s IH]; [constructor|].
  simpl. destruct (sp c) eqn:Hc; [exact IH|].
  assert (Hone : is_word sp [c]).
  { split; [discriminate|]. simpl. now rewrite Hc. }
  destruct s as [|d s']; [now constructor|].
  destruct (sp d) eqn:Hd; [now constructor|].
  destruct (split_on sp (d :: s')) as [|w ws]; [now constructor|].
  inversion IH as [|w' ws' [Hne Hw] Hws]; subst.
  constructor; [|assumption].
  split; [discriminate|]. simpl. now rewrite Hc, Hw.
Qed.

Lemma split_on_one_word (sp : N -> bool) (w : pystr) :
  is_word sp w -> split_on sp w = [w].
Proof.
  intros [Hne Hw]. induction w as [|c w IH]; [contradiction|].
  simpl in Hw. apply andb_true_iff in Hw as [Hc Hw].
  apply negb_true_iff in Hc. simpl. rewrite Hc.
  destruct w as [|d w']; [reflexivity|].
  assert (Hd : sp d = false).
  { simpl in Hw. apply andb_true_iff in Hw as [Hd _].
    now apply negb_true_iff in Hd. }
  rewrite Hd, IH by (discriminate || assumption). reflexivity.
Qed.

Lemma concat_split_words (ws : list pystr) :
  Forall (is_word isspace) ws -> concat (map split ws) = ws.
Proof.
  induction 1 as [|w ws Hw _ IH]; [reflexivity|].
  simpl. unfold split at 1. rewrite (split_on_one_word _ _ Hw), IH.
  reflexivity.
Qed.

Lemma join_space_cons (w : pystr) (ws : list pystr) :
  join space (w :: ws)
  = w ++ match ws with [] => [] | _ => 32%N :: join space ws end.
Proof. destruct ws; simpl; [now rewrite app_nil_r|reflexivity]. Qed.

Lemma lstrip_word_head (w rest : pystr) :
  is_word isspace w -> lstrip (w ++ rest) = w ++ rest.
Proof.
  intros [Hne Hw]. destruct w as [|c w]; [contradiction|].
  simpl in *. apply andb_true_iff in Hw as [Hc _].
  apply negb_true_iff in Hc. now rewrite Hc.
Qed.

Lemma is_word_rev (w : pystr) : is_word isspace w -> is_word isspace (rev w).
Proof.
  intros [Hne Hw]. split.
  - intros Hr. apply Hne. rewrite <- (rev_involutive w), Hr. reflexivity.
  - rewrite forallb_forall in *. intros c Hc. apply Hw. now apply in_rev.
Qed.

(** The joined words end with a word. *)
Lemma join_space_last (ws : list pystr) :
  Forall (is_word isspace) ws -> ws <> [] ->
  exists pre w, join space ws = pre ++ w /\ is_word isspace w.
Proof.
  induction 1 as [|w ws Hw Hws IH]; [contradiction|]. intros _.
  rewrite join_space_cons. destruct ws as [|w' ws'].
  - exists [], w. now rewrite app_nil_r.
  - destruct IH as [pre [l [Heq Hl]]]; [discriminate|].
    exists (w ++ 32%N :: pre), l. split; [|assumption].
    rewrite Heq, <- app_assoc. reflexivity.
Qed.

Lemma strip_join_words (ws : list pystr) :
  Forall (is_word isspace) ws -> strip (join space ws) = join space ws.
Proof.
  intros Hws. destruct ws as [|w ws]; [reflexivity|].
  unfold strip. assert (Hl : lstrip (join space (w :: ws)) = join space (w :: ws)).
  { rewrite join_space_cons. apply lstrip_word_head.
    now inversion Hws. }
  rewrite Hl. unfold rstrip.
  destruct (join_space_last (w :: ws) Hws) as [pre [l [Heq Hw]]];
    [discriminate|].
  rewrite Heq, rev_app_distr, lstrip_word_head by now apply is_word_rev.
  rewrite <- rev_app_distr. apply rev_involutive.
Qed.

Lemma join_words_only_spaces (ws : list pystr) :
  Forall (is_word isspace) ws ->
  Forall (fun c => isspace c = true -> c = 32%N) (join space ws).
Proof.
  induction 1 as [|w ws [_ Hw] _ IH]; [constructor|].
  rewrite join_space_cons. apply Forall_app. split.
  - rewrite forallb_forall in Hw. apply Forall_forall. intros c Hc Hsp.
    apply Hw in Hc. rewrite Hsp in Hc. discriminate.
  - destruct ws; [constructor|]. constructor; [reflexivity|exact IH].
Qed.

Lemma join_cons_head (c : N) (w : pystr) (ws : list pystr) :
  join space ((c :: w) :: ws) = c :: join space (w :: ws).
Proof. destruct ws; reflexivity. Qed.

Lemma length_join_singleton_cons (c : N) (ws : list pystr) :
  length (join space ([c] :: ws)) <= 2 + length (join space ws).
Proof. destruct ws; simpl; lia. Qed.

End CleanupFacts.

(** ** More on the content extractor *)

Module ExtractorMore.

Import PyStrFacts SoupFacts CleanupFacts.

(** X1: the extracted content is clean: the clean-up would not change it
    again, it has no whitespace at either end, and its only whitespace
    code points are single spaces (no tab, line break or no-break space
    survives). *)
Theorem extracted_content_is_clean (page : soup) :
  collapse_whitespace (extract_content page) = extract_content page
  /\ strip (extract_content page) = extract_content page
  /\ Forall (fun c => isspace c = true -> c = 32%N) (extract_content page).
Proof.
  unfold extract_content, article_content_of.
  set (s := if is_empty _ then _ else _).
  unfold collapse_whitespace.
  pose proof (split_on_gives_words isspace s) as Hws. fold (split s) in Hws.
  split; [|split].
  - rewrite split_join_space, concat_split_words by assumption. reflexivity.
  - now apply strip_join_words.
  - now apply join_words_only_spaces.
Qed.

(** X2: the extracted content is never longer than the text the selector
    loop or the paragraph fallback produced. *)
Theorem extracted_content_not_longer (page : soup) :
  length (extract_content page)
  <= length (raw_article_content (decompose_all unwanted page)).
Proof.
  unfold extract_content, article_content_of.
  fold (raw_article_content (decompose_all unwanted page)).
  generalize (raw_article_content (decompose_all unwanted page)) as s.
  intros s.
  unfold collapse_whitespace, split.
  assert (H : forall n s, length s <= n ->
                length (join space (split_on isspace s)) <= length s).
  { clear s. induction n as [|n IH]; intros s Hn.
    - destruct s; [simpl; lia|simpl in Hn; lia].
    - destruct s as [|c s']; [simpl; lia|]. simpl in Hn.
      assert (Hs' : length (join space (split_on isspace s')) <= length s')
        by (apply IH; lia).
      simpl split_on. destruct (isspace c); [simpl length; lia|].
      destruct s' as [|d s'']; [simpl; lia|].
      destruct (isspace d) eqn:Hd.
      + rewrite split_on_sep_head in * by assumption.
        assert (Hs'' : length (join space (split_on isspace s'')) <= length s'')
          by (apply IH; simpl in Hn; lia).
        pose proof (length_join_singleton_cons c (split_on isspace s'')).
        simpl length in *. lia.
      + destruct (split_on isspace (d :: s'')) as [|w ws] eqn:Hsp.
        * simpl. lia.
        * rewrite join_cons_head. simpl length in *. lia. }
  apply (H (length s)). lia.
Qed.

Lemma kept_nodes_unnamed (names : list pystr) (l : list node) (c' : node) :
  In c' (flat_map (fun c => if name_in names c then []
                            else [decompose_node names c]) l) ->
  name_in names c' = false.
Proof.
  intros H. apply in_flat_map in H as [c [_ Hin]].
  destruct (name_in names c) eqn:Hc; simpl in Hin; [contradiction|].
  destruct Hin as [<-|[]]. destruct c; exact Hc.
Qed.

Lemma descendants_decompose_unnamed (names : list pystr) (n m : node) :
  In m (descendants (decompose_node names n)) -> name_in names m = false.
Proof.
  revert m. induction n as [s|kind s|nm attrs children IH]
    using node_ind_children; intros m Hm; try contradiction.
  simpl in Hm. apply in_flat_map in Hm as [c' [Hc' Hm]].
  destruct Hm as [<-|Hm].
  - exact (kept_nodes_unnamed names children c' Hc').
  - apply in_kept in Hc' as [c [Hc ->]].
    rewrite Forall_forall in IH. exact (IH c Hc m Hm).
Qed.

(** X3: after [for element in soup(names): element.decompose()] no
    element with one of the names is left anywhere in the tree, however
    deeply it was nested. *)
Theorem decompose_all_leaves_none (names : list pystr) (page : soup) :
  find_all names (decompose_all names page) = [].
Proof.
  unfold find_all.
  destruct (filter (name_in names)
              (soup_descendants (decompose_all names page)))
    as [|m rest] eqn:Hf; [reflexivity|].
  assert (Hin : In m (filter (name_in names)
                        (soup_descendants (decompose_all names page))))
    by (rewrite Hf; now left).
  apply filter_In in Hin as [Hin Hname].
  unfold soup_descendants, decompose_all in Hin.
  apply in_flat_map in Hin as [c' [Hc' Hm]].
  destruct Hm as [<-|Hm].
  - rewrite (kept_nodes_unnamed names page c' Hc') in Hname. discriminate.
  - apply in_kept in Hc' as [c [Hc ->]].
    rewrite (descendants_decompose_unnamed names c m Hm) in Hname.
    discriminate.
Qed.

Lemma words_of_kept_strings (l : list pystr) :
  concat (map split (filter (fun s => negb (is_empty s)) (map strip l)))
  = concat (map split l).
Proof.
  induction l as [|x l IH]; [reflexivity|].
  simpl. destruct (is_empty (strip x)) eqn:He; simpl.
  - rewrite (strip_empty_split x), IH; [reflexivity|].
    destruct (strip x); [reflexivity|discriminate].
  - rewrite split_strip, IH. reflexivity.
Qed.

(** X4: the text the extractor returns for a container element is exactly
    the whitespace-delimited words of the strings [get_text] yields for
    that element, in document order, joined by single spaces.  These
    strings are its text nodes, or, for a [template], [rt] or [rp]
    container, the strings of that element's own class.  How the text is
    cut into nodes and what whitespace surrounds the words makes no
    difference. *)
Theorem element_text_is_its_words (el : node) :
  element_text el = join space (concat (map split (strings el))).
Proof.
  unfold element_text, collapse_whitespace, get_text_sep_strip.
  now rewrite split_join_space, words_of_kept_strings.
Qed.

(** X5: the removal of the unwanted elements cannot make a container
    selector match: a selector that matches nothing in the page as parsed
    matches nothing when the extractor looks for containers. *)
Theorem removal_creates_no_match (page : soup) (sel : selector) :
  select_one sel page = None ->
  select_one sel (decompose_all unwanted page) = None.
Proof.
  unfold select_one. intros Hnone. apply find_none_all. intros m Hm.
  apply soup_descendants_decompose in Hm as [m0 [Hm0 ->]].
  rewrite matches_decompose_node.
  exact (find_none _ _ Hnone m0 Hm0).
Qed.

(** A page without an article element. *)
Lemma removal_creates_no_match_witness :
  select_one (SelType (py "article")) paragraphs_only = None
  /\ select_one (SelType (py "article"))
       (decompose_all unwanted paragraphs_only) = None.
Proof.
  split; [reflexivity|].
  apply (removal_creates_no_match paragraphs_only (SelType (py "article"))).
  reflexivity.
Defined.

End ExtractorMore.

(** ** More on the request handlers *)

Module HandlerMore.

Import RunFacts AppFacts.

(** Case analysis on whatever the running handler inspects next. *)
Ltac branch :=
  match goal with
  | |- context [match ?x with _ => _ end] =>
      lazymatch x with
      | context [match _ with _ => _ end] => fail
      | _ => destruct x eqn:?
      end
  end.

Ltac walk :=
  repeat (cbn [run bind try_except lift requests_get generate_content
               raise_for_status news_failure negb andb orb fst snd
               py_get py_len py_slice_to] in *;
          try branch).

Section MoreHandlerFacts.

Variable isoformat : Z -> pystr.
Variable html_parser : list N -> soup.
Variable py_str : json -> pystr.

Ltac returned := do 2 eexists; split; [reflexivity|].

(** X6: the two handlers whose whole body sits in a [try] never let an
    exception out.  Whatever the request, the configuration and the
    answers of the outside world, the trending handler returns a response
    whose status is 204, 200, 500 or the status the news API answered
    with, and the summarize handler one whose status is 204, 400, 200 or
    500. *)
Theorem wrapped_handlers_always_respond (cfg : config) (rq : request)
  (w : world) (n : nat) :
  (exists r t,
      run w n (get_trending isoformat cfg rq) = (inr r, t)
      /\ (status r = 204%Z \/ status r = 200%Z \/ status r = 500%Z
          \/ exists response,
               requests_at w n
                 (trending_request cfg
                    (args_get (args rq) (py "category") (py "general")))
               = inr response
               /\ status r = status_code response))
  /\ (exists r t,
        run w n (summarize_article py_str cfg rq) = (inr r, t)
        /\ (status r = 204%Z \/ status r = 400%Z \/ status r = 200%Z
            \/ status r = 500%Z)).
Proof.
  split.
  - unfold get_trending.
    destruct (is_options rq); [returned; now left|].
    destruct (no_news_key cfg).
    { rewrite run_bind, run_get_demo_articles. cbn [run length].
      returned. right. now left. }
    rewrite run_try_except. cbn [requests_get bind run].
    destruct (requests_at w n _) as [e|response] eqn:Hreq;
      cbn [lift bind run].
    { returned. right. right. now left. }
    destruct (json_of response) as [e|data]; cbn [lift bind run].
    { returned. right. right. now left. }
    destruct data; cbn [py_get lift bind run];
      try (destruct (status_code response =? 200)%Z; cbn [lift bind run];
           returned; right; right; now left).
    destruct (status_code response =? 200)%Z; cbn [lift bind run].
    + destruct (py_len _) as [e|len]; cbn [lift bind run];
        returned; right; [right|]; now left.
    + destruct (status_code response =? 401)%Z; cbn [lift bind run].
      * returned. do 3 right. eauto.
      * destruct (status_code response =? 429)%Z; cbn [lift bind run].
        -- rewrite run_bind, run_get_demo_articles. cbn [run length].
           returned. right. now left.
        -- returned. do 3 right. eauto.
  - unfold summarize_article.
    destruct (is_options rq); [returned; now left|].
    rewrite run_try_except.
    destruct (get_json rq) as [e|data]; cbn [lift bind run].
    { returned. now do 3 right. }
    destruct (truthy data); cbn [negb run].
    2:{ returned. right. now left. }
    destruct (py_get data (py "text") (JStr [])) as [e|text];
      cbn [lift bind run].
    { returned. now do 3 right. }
    destruct (py_len text) as [e|len]; cbn [lift bind run].
    { returned. now do 3 right. }
    destruct (truthy text); cbn [negb run].
    2:{ returned. right. now left. }
    destruct (has_model cfg); cbn [negb run].
    2:{ returned. right. right. now left. }
    destruct (py_slice_to 3000 text) as [e|excerpt]; cbn [lift bind run].
    { returned. now do 3 right. }
    cbn [generate_content bind run].
    destruct (generate_at w n _) as [e|reply]; cbn [lift bind run].
    { returned. now do 3 right. }
    destruct (text_of reply) as [e|summary]; cbn [lift bind run].
    { returned. now do 3 right. }
    destruct (is_empty summary); cbn [run].
    { returned. right. right. now left. }
    cbn [lift bind run]. returned. right. right. now left.
Qed.

Ltac inspect :=
  match goal with
  | |- context [lift ?x] => destruct x eqn:?
  | |- context [match ?x with _ => _ end] =>
      lazymatch x with
      | context [run] => fail
      | _ => destruct x eqn:?
      end
  end.

Ltac walk_through :=
  repeat (cbn [run bind try_except lift requests_get generate_content
               raise_for_status news_failure get_demo_articles utcnow
               randint add_summary negb andb fst snd];
          try inspect).

(** X7: no handler calls the outside world more than it needs to.  The
    trending and the search handler make at most one request to the news
    API and never call the model; the summarize handler makes no HTTP
    request and calls the model at most once; the extraction handler
    leaves one of three traces: no call, the page fetch alone, or the page
    fetch followed by one call of the model, so the model is never called
    before or without a fetch.  Nothing is retried. *)
Theorem call_budget (cfg : config) (rq : request) (w : world) (n : nat) :
  (upstream_calls (snd (run w n (get_trending isoformat cfg rq))) <= 1
   /\ ai_calls (snd (run w n (get_trending isoformat cfg rq))) = 0)
  /\ (upstream_calls (snd (run w n (search_news isoformat cfg rq))) <= 1
      /\ ai_calls (snd (run w n (search_news isoformat cfg rq))) = 0)
  /\ (upstream_calls (snd (run w n (summarize_article py_str cfg rq))) = 0
      /\ ai_calls (snd (run w n (summarize_article py_str cfg rq))) <= 1)
  /\ (fetch_then_model
        (snd (run w n (extract_from_url html_parser cfg rq))) = true
      /\ upstream_calls
           (snd (run w n (extract_from_url html_parser cfg rq))) <= 1
      /\ ai_calls (snd (run w n (extract_from_url html_parser cfg rq)))
         <= upstream_calls
              (snd (run w n (extract_from_url html_parser cfg rq)))).
Proof.
  split; [|split; [|split]].
  - unfold get_trending. walk_through; split; cbn; lia.
  - unfold search_news. walk_through; split; cbn; lia.
  - unfold summarize_article. walk_through; split; cbn; lia.
  - unfold extract_from_url, raise_for_status, add_summary.
    walk_through; (split; [reflexivity|]); split; cbn; lia.
Qed.





(** X11: an extraction request whose JSON object has no [url], or one
    that Python counts as false, is answered with status 400 and the
    error [URL is required], and nothing is fetched. *)
Theorem missing_url_rejected (cfg : config) (rq : request) (w : world)
  (n : nat) (fields : list (pystr * json)) :
  is_options rq = false ->
  get_json rq = inr (JObj fields) ->
  truthy (field_or_empty fields (py "url")) = false ->
  run w n (extract_from_url html_parser cfg rq)
  = (inr (Resp 400 (JsonBody (error_body (JStr (py "URL is required"))))),
     []).
Proof.
  intros Hopt Hjson Hurl. unfold extract_from_url. rewrite Hopt, Hjson.
  cbn [lift bind py_get]. fold (field_or_empty fields (py "url")).
  rewrite Hurl. reflexivity.
Qed.





(** X16: for a request with a non-empty text, a configured model and a
    non-empty answer, the summarize handler makes one call to the model,
    whose prompt carries only the first 3000 code points of the text,
    and returns the answer with status 200; [original_length] is the
    length of the whole text, not of what was sent. *)
Theorem summary_reports_whole_length (cfg : config) (rq : request)
  (w : world) (n : nat) (fields : list (pystr * json))
  (text summary : pystr) :
  is_options rq = false ->
  get_json rq = inr (JObj fields) ->
  dict_get fields (py "text") = Some (JStr text) ->
  is_empty text = false ->
  has_model cfg = true ->
  model_text
    (generate_at w n
       (GenRequest (summarize_prompt (slice_to 3000 text)) 500 true))
  = inr summary ->
  is_empty summary = false ->
  run w n (summarize_article py_str cfg rq)
  = (inr (Resp 200
            (JsonBody
               (JObj [(py "summary", JStr summary);
                      (py "original_length", JInt (Z.of_nat (length text)));
                      (py "summary_length",
                       JInt (Z.of_nat (length summary)));
                      (py "ai_model", JStr (py "Gemini Pro"))]))),
     [EvGenerateContent
        (GenRequest (summarize_prompt (slice_to 3000 text)) 500 true)]).
Proof.
  intros Hopt Hjson Htext Hne Hmodel Hanswer Hsum.
  unfold summarize_article. rewrite Hopt, Hjson, run_try_except.
  destruct fields as [|kv rest]; [discriminate|].
  cbn [lift bind truthy negb py_get]. rewrite Htext.
  cbn [py_len lift bind truthy py_slice_to formatted]. rewrite Hne, Hmodel.
  cbn [negb generate_content bind run]. unfold model_text in Hanswer.
  destruct (generate_at w n _) as [e|reply]; [discriminate|].
  cbn [lift bind]. rewrite Hanswer. cbn [lift bind]. rewrite Hsum.
  reflexivity.
Qed.

(** X17: a summarize request whose [text] is present but has no length
    (JSON null, a number, true or false) is not answered with 400: the
    length is taken first, the [TypeError] is caught, and the answer is
    status 500 with an [error] that starts with [AI summarization
    failed]; the model is not called. *)
Theorem text_without_length_gives_500 (cfg : config) (rq : request)
  (w : world) (n : nat) (fields : list (pystr * json)) (text : json) :
  is_options rq = false ->
  get_json rq = inr (JObj fields) ->
  dict_get fields (py "text") = Some text ->
  has_len text = false ->
  run w n (summarize_article py_str cfg rq)
  = (inr (Resp 500
            (JsonBody
               (JObj [(py "error",
                       JStr (py "AI summarization failed: "
                             ++ py "object of type '" ++ type_name text
                             ++ py "' has no len()"));
                      (py "details",
                       JStr (py "Check server logs for more information"))]))),
     []).
Proof.
  intros Hopt Hjson Htext Hlen.
  unfold summarize_article. rewrite Hopt, Hjson, run_try_except.
  destruct fields as [|kv rest]; [discriminate|].
  cbn [lift bind truthy negb py_get]. rewrite Htext.
  destruct text; try discriminate; reflexivity.
Qed.

(** X18: without a configured model the summarize handler answers any
    request with a non-empty text with status 200 and a fixed body: the
    demo summary, [ai_model] set to [Demo Mode] and a [note]; there is no
    [error] field, and nothing is called. *)
Theorem no_model_gives_demo_summary (cfg : config) (rq : request)
  (w : world) (n : nat) (fields : list (pystr * json)) (text : pystr) :
  is_options rq = false ->
  get_json rq = inr (JObj fields) ->
  dict_get fields (py "text") = Some (JStr text) ->
  is_empty text = false ->
  has_model cfg = false ->
  exists r,
    run w n (summarize_article py_str cfg rq) = (inr r, [])
    /\ status r = 200%Z
    /\ body r
       = JsonBody
           (JObj [(py "summary",
                   JStr (py "This is a demo summary. To get real AI-powered summaries, please configure your Gemini API key in the .env file. Visit https://makersuite.google.com/app/apikey to get your free API key."));
                  (py "ai_model", JStr (py "Demo Mode"));
                  (py "note", JStr (py "Gemini API key not configured"))])
    /\ body_field r (py "summary")
       = Some (JStr (py "This is a demo summary. To get real AI-powered summaries, please configure your Gemini API key in the .env file. Visit https://makersuite.google.com/app/apikey to get your free API key."))
    /\ body_field r (py "ai_model") = Some (JStr (py "Demo Mode"))
    /\ body_field r (py "note")
       = Some (JStr (py "Gemini API key not configured"))
    /\ body_field r (py "error") = None.
Proof.
  intros Hopt Hjson Htext Hne Hmodel.
  unfold summarize_article. rewrite Hopt, Hjson, run_try_except.
  destruct fields as [|kv rest]; [discriminate|].
  cbn [lift bind truthy negb py_get]. rewrite Htext.
  cbn [py_len lift bind truthy]. rewrite Hne, Hmodel. cbn [negb run].
  eexists. split; [reflexivity|]. repeat split.
Qed.

(** X19: when the random source keeps to its bounds, the six demo
    articles come newest first: the hour offsets drawn for them increase
    strictly from one article to the next and lie between 1 and 72, so
    every [publishedAt] is the time of the call less one hour to three
    days. *)
Theorem demo_articles_newest_first (w : world) (n : nat) :
  within_bounds w ->
  map (article_field (py "publishedAt")) (demo_articles_at isoformat w n)
  = map (fun h => Some (published_at isoformat (now_at w n) h))
      (demo_offsets w n)
  /\ StronglySorted Z.lt (demo_offsets w n)
  /\ Forall (fun h => (1 <= h <= 72)%Z) (demo_offsets w n).
Proof.
  intros Hb. split; [reflexivity|].
  pose proof (Hb (1 + n) 1%Z 5%Z ltac:(lia)).
  pose proof (Hb (2 + n) 6%Z 12%Z ltac:(lia)).
  pose proof (Hb (3 + n) 13%Z 24%Z ltac:(lia)).
  pose proof (Hb (4 + n) 25%Z 36%Z ltac:(lia)).
  pose proof (Hb (5 + n) 37%Z 48%Z ltac:(lia)).
  pose proof (Hb (6 + n) 49%Z 72%Z ltac:(lia)).
  unfold demo_offsets. split.
  - repeat (constructor; [|repeat constructor; lia]). constructor.
  - repeat constructor; lia.
Qed.

(** X20: what [/api/health] reports is what the handlers do.
    [news_api_configured] is true exactly when a trending request goes to
    the news API, and [gemini_ai_configured] is true exactly when a
    summarize request with a non-empty text goes to the model. *)
Theorem health_matches_handlers (cfg : config) (server_time : pystr)
  (trending_rq summarize_rq : request) (w : world) (n : nat)
  (fields : list (pystr * json)) (text : pystr) :
  is_options trending_rq = false ->
  is_options summarize_rq = false ->
  get_json summarize_rq = inr (JObj fields) ->
  dict_get fields (py "text") = Some (JStr text) ->
  is_empty text = false ->
  exists news gemini,
    body_field (health_check cfg server_time) (py "news_api_configured")
    = Some (JBool news)
    /\ upstream_calls (snd (run w n (get_trending isoformat cfg trending_rq)))
       = (if news then 1 else 0)
    /\ body_field (health_check cfg server_time) (py "gemini_ai_configured")
       = Some (JBool gemini)
    /\ ai_calls (snd (run w n (summarize_article py_str cfg summarize_rq)))
       = (if gemini then 1 else 0).
Proof.
  intros Htr Hsu Hjson Htext Hne.
  exists (negb (no_news_key cfg)), (has_model cfg).
  split; [reflexivity|]. split; [|split; [reflexivity|]].
  - unfold get_trending. rewrite Htr. destruct (no_news_key cfg).
    + reflexivity.
    + walk_through; reflexivity.
  - unfold summarize_article. rewrite Hsu, Hjson, run_try_except.
    destruct fields as [|kv rest]; [discriminate|].
    cbn [lift bind truthy negb py_get]. rewrite Htext.
    cbn [py_len lift bind truthy py_slice_to]. rewrite Hne.
    destruct (has_model cfg); [|reflexivity].
    walk_through; reflexivity.
Qed.

End MoreHandlerFacts.




(** An extraction request without a [url]. *)
Lemma missing_url_rejected_witness :
  run (answering short_page) 0
    (extract_from_url text_page_parser without_keys
       (post_request (JObj [(py "summarize", JBool true)])))
  = (inr (Resp 400 (JsonBody (error_body (JStr (py "URL is required"))))),
     []).
Proof.
  apply (missing_url_rejected text_page_parser without_keys
           (post_request (JObj [(py "summarize", JBool true)]))
           (answering short_page) 0 [(py "summarize", JBool true)]);
    reflexivity.
Defined.





(** A text of 3001 code points: the length reported is 3001. *)
Lemma summary_reports_whole_length_witness :
  run summarizing 0
    (summarize_article type_name with_model
       (summarize_request (JStr (repeat 97%N 3001))))
  = (inr (Resp 200
            (JsonBody
               (JObj [(py "summary", JStr (py "A summary."));
                      (py "original_length", JInt 3001);
                      (py "summary_length", JInt 10);
                      (py "ai_model", JStr (py "Gemini Pro"))]))),
     [EvGenerateContent
        (GenRequest (summarize_prompt (repeat 97%N 3000)) 500 true)]).
Proof.
  apply (summary_reports_whole_length type_name with_model
           (summarize_request (JStr (repeat 97%N 3001))) summarizing 0
           [(py "text", JStr (repeat 97%N 3001))]
           (repeat 97%N 3001) (py "A summary."));
    reflexivity.
Defined.

(** A text that is JSON null. *)
Lemma text_without_length_gives_500_witness :
  run summarizing 0
    (summarize_article type_name with_model (summarize_request JNull))
  = (inr (Resp 500
            (JsonBody
               (JObj [(py "error",
                       JStr (py "AI summarization failed: object of type 'NoneType' has no len()"));
                      (py "details",
                       JStr (py "Check server logs for more information"))]))),
     []).
Proof.
  apply (text_without_length_gives_500 type_name with_model
           (summarize_request JNull) summarizing 0 [(py "text", JNull)]
           JNull);
    reflexivity.
Defined.

(** No model configured. *)
Lemma no_model_gives_demo_summary_witness :
  exists r,
    run summarizing 0
      (summarize_article type_name without_keys
         (summarize_request (JStr (py "Some article text"))))
    = (inr r, [])
    /\ status r = 200%Z
    /\ body r
       = JsonBody
           (JObj [(py "summary",
                   JStr (py "This is a demo summary. To get real AI-powered summaries, please configure your Gemini API key in the .env file. Visit https://makersuite.google.com/app/apikey to get your free API key."));
                  (py "ai_model", JStr (py "Demo Mode"));
                  (py "note", JStr (py "Gemini API key not configured"))])
    /\ body_field r (py "summary")
       = Some (JStr (py "This is a demo summary. To get real AI-powered summaries, please configure your Gemini API key in the .env file. Visit https://makersuite.google.com/app/apikey to get your free API key."))
    /\ body_field r (py "ai_model") = Some (JStr (py "Demo Mode"))
    /\ body_field r (py "note")
       = Some (JStr (py "Gemini API key not configured"))
    /\ body_field r (py "error") = None.
Proof.
  apply (no_model_gives_demo_summary type_name without_keys
           (summarize_request (JStr (py "Some article text"))) summarizing 0
           [(py "text", JStr (py "Some article text"))]
           (py "Some article text"));
    reflexivity.
Defined.

(** A random source that always draws the lower bound. *)
Lemma demo_articles_newest_first_witness :
  demo_offsets summarizing 0 = [1; 6; 13; 25; 37; 49]%Z
  /\ StronglySorted Z.lt (demo_offsets summarizing 0)
  /\ Forall (fun h => (1 <= h <= 72)%Z) (demo_offsets summarizing 0).
Proof.
  split; [reflexivity|].
  apply (demo_articles_newest_first epoch_isoformat summarizing 0).
  intros n lo hi H. simpl. lia.
Defined.

(** A news key and no model. *)
Lemma health_matches_handlers_witness :
  exists news gemini,
    body_field (health_check with_news_key (py "2024-01-01T00:00:00"))
      (py "news_api_configured")
    = Some (JBool news)
    /\ upstream_calls
         (snd (run summarizing 0
                 (get_trending epoch_isoformat with_news_key get_request)))
       = (if news then 1 else 0)
    /\ body_field (health_check with_news_key (py "2024-01-01T00:00:00"))
         (py "gemini_ai_configured")
       = Some (JBool gemini)
    /\ ai_calls
         (snd (run summarizing 0
                 (summarize_article type_name with_news_key
                    (summarize_request (JStr (py "Some article text"))))))
       = (if gemini then 1 else 0).
Proof.
  apply (health_matches_handlers epoch_isoformat type_name with_news_key
           (py "2024-01-01T00:00:00") get_request
           (summarize_request (JStr (py "Some article text"))) summarizing 0
           [(py "text", JStr (py "Some article text"))]
           (py "Some article text"));
    reflexivity.
Defined.

End HandlerMore.

(** ** Start-up *)

Module StartupFacts.

(** The model loop from turn [i] on: it ends at the first name whose test
    answers, and otherwise runs through with [model_initialized] false. *)
Lemma try_models_first_answer (probe : nat -> pystr -> probe_result)
  (names : list pystr) :
  forall i current,
    (exists k name,
        nth_error names k = Some name
        /\ answers (probe (i + k) name) = true
        /\ (forall j other, j < k -> nth_error names j = Some other ->
              answers (probe (i + j) other) = false)
        /\ try_models probe i names current = (Some name, true))
    \/ ((forall j other, nth_error names j = Some other ->
           answers (probe (i + j) other) = false)
        /\ snd (try_models probe i names current) = false).
Proof.
  induction names as [|name rest IH]; intros i current.
  - right. split; [|reflexivity]. intros [|j] other H; discriminate.
  - assert (Hstep : forall current',
              answers (probe i name) = false ->
              try_models probe i (name :: rest) current
              = try_models probe (S i) rest current' ->
              (exists k name0,
                  nth_error (name :: rest) k = Some name0
                  /\ answers (probe (i + k) name0) = true
                  /\ (forall j other, j < k ->
                        nth_error (name :: rest) j = Some other ->
                        answers (probe (i + j) other) = false)
                  /\ try_models probe i (name :: rest) current
                     = (Some name0, true))
              \/ ((forall j other, nth_error (name :: rest) j = Some other ->
                     answers (probe (i + j) other) = false)
                  /\ snd (try_models probe i (name :: rest) current) = false)).
    { intros current' Hno Heq. rewrite Heq.
      destruct (IH (S i) current')
        as [[k [name0 [Hk [Hans [Hbefore Hres]]]]]|[Hnone Hres]].
      - left. exists (S k), name0. rewrite <- plus_n_Sm. repeat split; auto.
        intros [|j] other Hj Hnth.
        + rewrite Nat.add_0_r. simpl in Hnth. now inversion Hnth; subst.
        + rewrite <- plus_n_Sm. apply (Hbefore j other); [lia|exact Hnth].
      - right. split; [|exact Hres].
        intros [|j] other Hnth.
        + rewrite Nat.add_0_r. simpl in Hnth. now inversion Hnth; subst.
        + rewrite <- plus_n_Sm. now apply Hnone. }
    simpl try_models in *. destruct (probe i name) as [| |text] eqn:Hp.
    + apply (Hstep current); [reflexivity|reflexivity].
    + apply (Hstep (Some name)); [reflexivity|reflexivity].
    + destruct (is_empty text) eqn:He.
      * apply (Hstep (Some name)); [simpl; now rewrite He|reflexivity].
      * left. exists 0, name. rewrite Nat.add_0_r, Hp. simpl. rewrite He.
        repeat split. intros j other Hj. lia.
Qed.

(** X21: the model the start-up code settles on is the first name, in the
    order of preference (the hard-coded names, then the listed ones),
    whose test request answered with a non-empty text; a model whose test
    failed is never kept, although the variable held it during the
    loop. *)
Theorem chosen_model_is_first_to_answer (key : option pystr) (g : genai)
  (name : pystr) :
  init_gemini_model key g = Some name ->
  exists k,
    nth_error (model_names_to_try g) k = Some name
    /\ answers (probe g k name) = true
    /\ forall j other,
         j < k -> nth_error (model_names_to_try g) j = Some other ->
         answers (probe g j other) = false.
Proof.
  unfold init_gemini_model. destruct key as [k0|]; [|discriminate].
  destruct (is_empty k0); [discriminate|].
  destruct (configure_raises g); [discriminate|].
  destruct (try_models_first_answer (probe g) (model_names_to_try g) 0 None)
    as [[k [chosen [Hk [Hans [Hbefore Hres]]]]]|[_ Hres]].
  - rewrite Hres. intros H. inversion H; subst. exists k. auto.
  - destruct (try_models (probe g) 0 (model_names_to_try g) None)
      as [m initialized]. simpl in Hres. subst initialized. discriminate.
Qed.

(** X22: no model is configured exactly when there is no key (or an
    empty one), or [genai.configure] raises, or no name in the list
    answers its test; whenever some name answers, a model is configured. *)
Theorem no_model_iff_nothing_answers (key : option pystr) (g : genai) :
  init_gemini_model key g = None
  <-> (match key with None => true | Some k => is_empty k end = true
       \/ configure_raises g = true
       \/ forall j other,
            nth_error (model_names_to_try g) j = Some other ->
            answers (probe g j other) = false).
Proof.
  unfold init_gemini_model. destruct key as [k0|]; [|intuition].
  destruct (is_empty k0); [intuition|].
  destruct (configure_raises g); [intuition|].
  destruct (try_models_first_answer (probe g) (model_names_to_try g) 0 None)
    as [[k [chosen [Hk [Hans [Hbefore Hres]]]]]|[Hnone Hres]].
  - rewrite Hres. split; [discriminate|].
    intros [H|[H|H]]; try discriminate.
    change (0 + k) with k in Hans.
    rewrite (H k chosen Hk) in Hans. discriminate.
  - destruct (try_models (probe g) 0 (model_names_to_try g) None)
      as [m initialized]. simpl in Hres. subst initialized.
    split; [|reflexivity]. intros _. right. right. exact Hnone.
Qed.

(** Only [gemini-pro] answers: it is chosen, as fifth in the list. *)
Lemma chosen_model_is_first_to_answer_witness :
  init_gemini_model (Some (py "key")) only_gemini_pro = Some (py "gemini-pro")
  /\ exists k,
      nth_error (model_names_to_try only_gemini_pro) k
      = Some (py "gemini-pro")
      /\ answers (probe only_gemini_pro k (py "gemini-pro")) = true
      /\ forall j other,
           j < k ->
           nth_error (model_names_to_try only_gemini_pro) j = Some other ->
           answers (probe only_gemini_pro j other) = false.
Proof.
  split; [reflexivity|].
  apply (chosen_model_is_first_to_answer (Some (py "key")) only_gemini_pro
           (py "gemini-pro")).
  reflexivity.
Defined.

End StartupFacts.
